(** * gag-stock-clone: the stock server [server.mjs]

    A shallow embedding of the snapshot provider ([fetchWithTimeout],
    [simulateStock], [fetchMockStock]) and of the two request handlers
    ([GET /api/stock], [GET /api/stock/stream]), and the properties of the
    specification proved, or refuted and amended, on it.

    The JavaScript is asynchronous and talks to a clock, a random number
    generator, the network and a client connection.  All four are oracles of
    an environment [Env]; a handler is a computation in a small state monad
    over a [World] that carries the event-loop time, the pending timers, the
    [active] flag of a subscription and a trace of what was done. *)

From Stdlib Require Import ZArith List String Ascii Bool Lia QArith.
From ExtLib Require Import Structures.Monad Structures.MonadExc.
Import ListNotations.
Import MonadNotation.
Local Open Scope monad_scope.
Local Open Scope string_scope.
Local Open Scope Z_scope.
Set Warnings "-register-all".

(** ** JavaScript values read from the upstream body *)

Module JS.

(** A number, as far as [x % 2 === 0] and [x % 2 === 1] can tell one from
    another: an integer-valued double, or anything else (a fraction, an
    infinity, NaN), for which [x % 2] is neither [0] nor [1]. *)
Inductive number :=
| Int (z : Z)
| NotInt.

(** What can be thrown and caught. *)
Inductive error :=
| TypeError
| SyntaxError
| AbortError
| FetchError.

(** A value built by [JSON.parse].  A string or an array owns none of the
    properties the server reads, and the one thing the server can do to it is
    to coerce it with [%]: each carries what the runtime's [ToNumber] makes of
    it ([None] for an array on which the coercion throws). *)
Inductive json :=
| JNull
| JBool (b : bool)
| JNum (n : number)
| JStr (s : string) (coerced : number)
| JArr (elems : list json) (coerced : option number)
| JObj (fields : list (string * json)).

(** A property read yields a JSON value or [undefined]. *)
Inductive value :=
| Undefined
| Val (j : json).

(** Own property [k] of an object built by [JSON.parse]: of two members with
    the same name the later one wins. *)
Fixpoint own_property (k : string) (fields : list (string * json)) : option json :=
  match fields with
  | [] => None
  | (k', v) :: rest =>
      match own_property k rest with
      | Some v' => Some v'
      | None => if String.eqb k k' then Some v else None
      end
  end.

(** [repo.k] for a name [k] that no prototype defines: a [TypeError] on
    [null], the own property on an object, [undefined] on everything else. *)
Definition Get (repo : json) (k : string) : error + value :=
  match repo with
  | JNull => inl TypeError
  | JObj fields =>
      match own_property k fields with
      | Some v => inr (Val v)
      | None => inr Undefined
      end
  | _ => inr Undefined
  end.

(** [v ?? d] *)
Definition nullish (v : value) (d : json) : json :=
  match v with
  | Undefined => d
  | Val JNull => d
  | Val j => j
  end.

(** [ToNumber] on a value that is neither [undefined] nor a symbol.  An
    object built by [JSON.parse] has no callable own property: it coerces to
    NaN through [Object.prototype.toString], unless an own member named
    [toString] shadows that method, and then the coercion throws. *)
Definition ToNumber (j : json) : error + number :=
  match j with
  | JNull => inr (Int 0)
  | JBool b => inr (Int (if b then 1 else 0))
  | JNum n => inr n
  | JStr _ n => inr n
  | JArr _ (Some n) => inr n
  | JArr _ None => inl TypeError
  | JObj fields =>
      match own_property "toString" fields with
      | Some _ => inl TypeError
      | None => inr NotInt
      end
  end.

(** [x % 2 === k] for [k] in [0], [1]: [%] keeps the sign of the dividend,
    as [Z.rem] does. *)
Definition rem2_is (k : Z) (x : number) : bool :=
  match x with
  | Int z => Z.rem z 2 =? k
  | NotInt => false
  end.

End JS.

(** ** [Date.prototype.toISOString] *)

Module Iso.

Definition digit (d : Z) : ascii := ascii_of_nat (48 + Z.to_nat d).

(** The [n] low decimal digits of [z], most significant first. *)
Fixpoint pad (n : nat) (z : Z) : string :=
  match n with
  | O => EmptyString
  | S n' => pad n' (z / 10) ++ String (digit (z mod 10)) EmptyString
  end.

(** Year, month and day of the proleptic Gregorian calendar for a day
    number counted from 1970-01-01. *)
Definition civil (days : Z) : Z * Z * Z :=
  let z := days + 719468 in
  let era := z / 146097 in
  let doe := z - era * 146097 in
  let yoe := (doe - doe / 1460 + doe / 36524 - doe / 146096) / 365 in
  let doy := doe - (365 * yoe + yoe / 4 - yoe / 100) in
  let mp := (5 * doy + 2) / 153 in
  let d := doy - (153 * mp + 2) / 5 + 1 in
  let m := if mp <? 10 then mp + 3 else mp - 9 in
  let y := yoe + era * 400 + (if m <=? 2 then 1 else 0) in
  (y, m, d).

Definition year (y : Z) : string :=
  if (0 <=? y) && (y <=? 9999) then pad 4 y
  else if y <? 0 then "-" ++ pad 6 (- y)
  else "+" ++ pad 6 y.

(** [new Date(t).toISOString()] for a time value [t] in milliseconds since
    the epoch. *)
Definition toISOString (t : Z) : string :=
  let '(y, m, d) := civil (t / 86400000) in
  let ms := t mod 86400000 in
  year y ++ "-" ++ pad 2 m ++ "-" ++ pad 2 d ++ "T"
    ++ pad 2 (ms / 3600000) ++ ":" ++ pad 2 (ms / 60000 mod 60) ++ ":"
    ++ pad 2 (ms / 1000 mod 60) ++ "." ++ pad 3 (ms mod 1000) ++ "Z".

End Iso.

(** ** The data model *)

Record StockItem := {
  category : string;
  item : string;
  inStock : bool;
  lastSeen : string
}.

(** The object the handlers serialise. *)
Record Payload := {
  updatedAt : string;
  items : list StockItem
}.

(** ** [JSON.stringify] on a payload *)

Module Stringify.

Definition dq : string := String (ascii_of_nat 34) EmptyString.
Definition bs : string := String (ascii_of_nat 92) EmptyString.
Definition nl : string := String (ascii_of_nat 10) EmptyString.

Definition hex (d : nat) : ascii :=
  if (d <? 10)%nat then ascii_of_nat (48 + d) else ascii_of_nat (87 + d).

Definition escape (c : ascii) : string :=
  let n := nat_of_ascii c in
  if (n =? 34)%nat then bs ++ dq
  else if (n =? 92)%nat then bs ++ bs
  else if (n =? 8)%nat then bs ++ "b"
  else if (n =? 12)%nat then bs ++ "f"
  else if (n =? 10)%nat then bs ++ "n"
  else if (n =? 13)%nat then bs ++ "r"
  else if (n =? 9)%nat then bs ++ "t"
  else if (n <? 32)%nat then
    bs ++ "u00" ++ String (hex (n / 16)) (String (hex (n mod 16)) EmptyString)
  else String c EmptyString.

Fixpoint escape_all (s : string) : string :=
  match s with
  | EmptyString => EmptyString
  | String c rest => escape c ++ escape_all rest
  end.

Definition quote (s : string) : string := dq ++ escape_all s ++ dq.

Definition boolean (b : bool) : string := if b then "true" else "false".

Definition member (k v : string) : string := quote k ++ ":" ++ v.

Definition stock_item (it : StockItem) : string :=
  "{" ++ member "category" (quote (category it)) ++ ","
      ++ member "item" (quote (item it)) ++ ","
      ++ member "inStock" (boolean (inStock it)) ++ ","
      ++ member "lastSeen" (quote (lastSeen it)) ++ "}".

Fixpoint elements (l : list string) : string :=
  match l with
  | [] => ""
  | [x] => x
  | x :: rest => x ++ "," ++ elements rest
  end.

Definition payload (p : Payload) : string :=
  "{" ++ member "updatedAt" (quote (updatedAt p)) ++ ","
      ++ member "items" ("[" ++ elements (map stock_item (items p)) ++ "]") ++ "}".

End Stringify.

(** ** The environment and the world *)

(** What reading the body of a response and parsing it does. *)
Inductive Body :=
| BodyJson (after : N) (j : JS.json)   (* read in [after] ms, parses to [j] *)
| BodyMalformed (after : N)            (* read, but [JSON.parse] throws *)
| BodyFails (after : N)                (* the read itself rejects *)
| BodyStalls.                          (* the read never completes *)

Record Response := { body : Body }.

(** What the network does with one request, left to itself. *)
Inductive Upstream :=
| Responds (after : N) (r : Response)  (* the headers arrive after [after] ms *)
| Fails (after : N)                    (* the request rejects after [after] ms *)
| Silent.                              (* nothing ever comes back *)

Record Env := {
  wall : nat -> Z;          (* the [k]-th reading of the wall clock, ms since the epoch *)
  random : nat -> Q;        (* the [k]-th [Math.random()] *)
  net : nat -> Upstream;    (* the fate of the [k]-th upstream request *)
  closes_at : option Z      (* event-loop time of the request's [close] event *)
}.

Inductive Event :=
| SetTimeout (id : nat) (delay : Z)
| ClearTimeout (id : nat)
| TimerFired (id : nat)
| AbortSignal (id : nat)
| Fetch (url : string)
| WriteHead (status : Z) (headers : list (string * string))
| ResWrite (chunk : string)
| ResJson (status : Z) (p : Payload).

Record World := {
  vtime : Z;                    (* event-loop time, ms *)
  clock_reads : nat;
  random_draws : nat;
  requests : nat;
  next_timer : nat;
  timers : list (nat * Z);      (* pending timers: id and due time *)
  active : bool;
  trace : list (Z * Event)      (* what was done, and when, oldest first *)
}.

(** ** Asynchronous computations *)

Inductive Completion (A : Type) :=
| Normal (a : A)
| Throw (e : JS.error)
| Never.
Arguments Normal {A} a.
Arguments Throw {A} e.
Arguments Never {A}.

Definition Async (A : Type) : Type := World -> Completion A * World.

#[global] Instance Monad_Async : Monad Async := {
  ret _ a := fun w => (Normal a, w);
  bind _ _ c k := fun w =>
    match c w with
    | (Normal a, w') => k a w'
    | (Throw e, w') => (Throw e, w')
    | (Never, w') => (Never, w')
    end
}.

(** [try { c } catch (e) { h e }] *)
#[global] Instance Exc_Async : MonadExc JS.error Async := {
  raise _ e := fun w => (Throw e, w);
  catch _ c h := fun w =>
    match c w with
    | (Throw e, w') => h e w'
    | r => r
    end
}.

Definition lift {A : Type} (r : JS.error + A) : Async A :=
  match r with
  | inl e => raise e
  | inr a => ret a
  end.

(** ** The event loop *)

Definition set_loop (t : Z) (a : bool) (w : World) : World :=
  {| vtime := t; clock_reads := clock_reads w; random_draws := random_draws w;
     requests := requests w; next_timer := next_timer w; timers := timers w;
     active := a; trace := trace w |}.

Definition set_timers (n : nat) (l : list (nat * Z)) (w : World) : World :=
  {| vtime := vtime w; clock_reads := clock_reads w; random_draws := random_draws w;
     requests := requests w; next_timer := n; timers := l;
     active := active w; trace := trace w |}.

Definition set_counters (c r q : nat) (w : World) : World :=
  {| vtime := vtime w; clock_reads := c; random_draws := r;
     requests := q; next_timer := next_timer w; timers := timers w;
     active := active w; trace := trace w |}.

Definition log (e : Event) (w : World) : World :=
  {| vtime := vtime w; clock_reads := clock_reads w; random_draws := random_draws w;
     requests := requests w; next_timer := next_timer w; timers := timers w;
     active := active w; trace := (trace w ++ [(vtime w, e)])%list |}.

(** A delay below 1 ms or above 2^31-1 ms is set to 1 ms. *)
Definition timer_delay (ms : Z) : Z :=
  if (ms <? 1) || (2147483647 <? ms) then 1 else ms.

Fixpoint due (id : nat) (l : list (nat * Z)) : option Z :=
  match l with
  | [] => None
  | (i, t) :: rest => if (i =? id)%nat then Some t else due id rest
  end.

Definition unschedule (id : nat) (l : list (nat * Z)) : list (nat * Z) :=
  filter (fun x => negb (fst x =? id)%nat) l.

(** What the network alone would settle a request with, and when. *)
Definition settles (u : Upstream) : option (Z * (JS.error + Response)) :=
  match u with
  | Responds d r => Some (Z.of_N d, inr r)
  | Fails d => Some (Z.of_N d, inl JS.FetchError)
  | Silent => None
  end.

(** The two lines of a server-sent event. *)
Definition event_line (name : string) : string :=
  "event: " ++ name ++ Stringify.nl.

Definition data_line (data : string) : string :=
  "data: " ++ data ++ Stringify.nl ++ Stringify.nl.

Definition sse_headers : list (string * string) :=
  [ ("Content-Type", "text/event-stream");
    ("Cache-Control", "no-cache");
    ("Connection", "keep-alive") ].

Section Server.

Variable env : Env.

(** Has the [close] event of the request been handled by time [t]? *)
Definition closed_by (t : Z) : bool :=
  match closes_at env with
  | Some tc => tc <=? t
  | None => false
  end.

(** The event loop runs for [d] ms while the computation is suspended in an
    [await]; the listener [() => { active = false; }] runs if the [close]
    event has come by then. *)
Definition elapse (d : Z) (w : World) : World :=
  let t := vtime w + Z.max 0 d in
  set_loop t (active w && negb (closed_by t)) w.

(** [new Date()], as a time value. *)
Definition new_Date : Async Z := fun w =>
  (Normal (wall env (clock_reads w)),
   set_counters (S (clock_reads w)) (random_draws w) (requests w) w).

(** [Math.random()] *)
Definition Math_random : Async Q := fun w =>
  (Normal (random env (random_draws w)),
   set_counters (clock_reads w) (S (random_draws w)) (requests w) w).

(** [setTimeout(callback, ms)]; the callback is known from the timer's use. *)
Definition setTimeout (ms : Z) : Async nat := fun w =>
  let id := next_timer w in
  let d := timer_delay ms in
  (Normal id, log (SetTimeout id d) (set_timers (S id) ((id, vtime w + d) :: timers w) w)).

Definition clearTimeout (id : nat) : Async unit := fun w =>
  (Normal tt, log (ClearTimeout id) (set_timers (next_timer w) (unschedule id (timers w)) w)).

(** Timer [id] comes due at [t]: the loop runs until then and the timer is
    no longer pending. *)
Definition fire (id : nat) (t : Z) (w : World) : World :=
  let w1 := elapse (t - vtime w) w in
  log (TimerFired id) (set_timers (next_timer w1) (unschedule id (timers w1)) w1).

(** [await fetch(url, { signal })], where the signal belongs to the
    controller that timer [signal] aborts.  The request races the timer: if
    the network settles it first, that is the outcome; otherwise the timer
    fires, its callback runs [controller.abort()] and the request rejects. *)
Definition fetch (url : string) (signal : nat) : Async Response := fun w =>
  let u := net env (requests w) in
  let w := log (Fetch url) (set_counters (clock_reads w) (random_draws w) (S (requests w)) w) in
  match settles u, due signal (timers w) with
  | Some (d, r), Some t =>
      if vtime w + d <? t then lift r (elapse d w)
      else (Throw JS.AbortError, log (AbortSignal signal) (fire signal t w))
  | Some (d, r), None => lift r (elapse d w)
  | None, Some t => (Throw JS.AbortError, log (AbortSignal signal) (fire signal t w))
  | None, None => (Never, w)
  end.

(** [await response.json()] *)
Definition json (r : Response) : Async JS.json := fun w =>
  match body r with
  | BodyJson d j => (Normal j, elapse (Z.of_N d) w)
  | BodyMalformed d => (Throw JS.SyntaxError, elapse (Z.of_N d) w)
  | BodyFails d => (Throw JS.FetchError, elapse (Z.of_N d) w)
  | BodyStalls => (Never, w)
  end.

(** [await new Promise(r => setTimeout(r, ms))] *)
Definition sleep (ms : Z) : Async unit :=
  id <- setTimeout ms ;;
  fun w =>
    match due id (timers w) with
    | Some t => (Normal tt, fire id t w)
    | None => (Never, w)
    end.

Definition write (chunk : string) : Async unit := fun w =>
  (Normal tt, log (ResWrite chunk) w).

Definition writeHead (status : Z) (headers : list (string * string)) : Async unit :=
  fun w => (Normal tt, log (WriteHead status headers) w).

(** [res.json(p)]: the status code was never set and is 200. *)
Definition res_json (p : Payload) : Async unit := fun w =>
  (Normal tt, log (ResJson 200 p) w).

Definition get_active : Async bool := fun w => (Normal (active w), w).

Definition set_active (a : bool) : Async unit := fun w =>
  (Normal tt, set_loop (vtime w) a w).

(** ** The server *)

Definition fetchWithTimeout (url : string) (ms : Z) : Async Response :=
  id <- setTimeout ms ;;
  catch (resp <- fetch url id ;;
         clearTimeout id ;;
         ret resp)
        (fun e =>
           clearTimeout id ;;
           raise e).

(** [Math.random() > 0.5] *)
Definition over_half (r : Q) : bool := negb (Qle_bool r (1 # 2)).

Definition simulateStock : Async (list StockItem) :=
  t <- new_Date ;;
  let now := Iso.toISOString t in
  r1 <- Math_random ;;
  r2 <- Math_random ;;
  r3 <- Math_random ;;
  ret [ {| category := "Seeds"; item := "Sunflower Seed"; inStock := over_half r1; lastSeen := now |};
        {| category := "Eggs"; item := "Chicken Egg"; inStock := over_half r2; lastSeen := now |};
        {| category := "Gear"; item := "Watering Can"; inStock := over_half r3; lastSeen := now |} ].

Definition source : string := "https://api.github.com/repos/vercel/next.js".

(** [(repo.k ?? 0) % 2 === r], which throws if the property read or the
    coercion does. *)
Definition parity (repo : JS.json) (k : string) (r : Z) : JS.error + bool :=
  match JS.Get repo k with
  | inl e => inl e
  | inr v =>
      match JS.ToNumber (JS.nullish v (JS.JNum (JS.Int 0))) with
      | inl e => inl e
      | inr x => inr (JS.rem2_is r x)
      end
  end.

(** The [try] block of [fetchMockStock]. *)
Definition fetchMockStock_try : Async (list StockItem) :=
  response <- fetchWithTimeout source 2000 ;;
  repo <- json response ;;
  t <- new_Date ;;
  let now := Iso.toISOString t in
  s1 <- lift (parity repo "stargazers_count" 0) ;;
  s2 <- lift (parity repo "open_issues_count" 1) ;;
  ret [ {| category := "Seeds"; item := "Sunflower Seed"; inStock := s1; lastSeen := now |};
        {| category := "Eggs"; item := "Chicken Egg"; inStock := s2; lastSeen := now |};
        {| category := "Gear"; item := "Watering Can"; inStock := true; lastSeen := now |} ].

Definition fetchMockStock : Async (list StockItem) :=
  catch fetchMockStock_try (fun _ => simulateStock).

(** [app.get("/api/stock", ...)] *)
Definition get_api_stock : Async unit :=
  items <- fetchMockStock ;;
  t <- new_Date ;;
  res_json {| updatedAt := Iso.toISOString t; items := items |}.

(** The loop of [tick].  [fuel] bounds the number of iterations that are
    observed: a run that uses it up is cut short there. *)
Fixpoint tick (fuel : nat) : Async unit :=
  match fuel with
  | O => ret tt
  | S fuel' =>
      a <- get_active ;;
      if a then
        items <- fetchMockStock ;;
        t <- new_Date ;;
        let payload := {| updatedAt := Iso.toISOString t; items := items |} in
        write (event_line "stock") ;;
        write (data_line (Stringify.payload payload)) ;;
        sleep 10000 ;;
        tick fuel'
      else ret tt
  end.

(** [app.get("/api/stock/stream", ...)] *)
Definition get_api_stock_stream (fuel : nat) : Async unit :=
  writeHead 200 sse_headers ;;
  set_active true ;;
  tick fuel.

End Server.

(** A world in which nothing has happened yet. *)
Definition boot : World :=
  {| vtime := 0; clock_reads := 0; random_draws := 0; requests := 0;
     next_timer := 0; timers := []; active := true; trace := [] |}.

(** * Vocabulary of the properties *)

Definition completion {A : Type} (r : JS.error + A) : Completion A :=
  match r with
  | inl e => Throw e
  | inr a => Normal a
  end.

(** The world after [fetchWithTimeout url ms] started in [w] and the network
    settled the request after [d] ms, before the timer. *)
Definition settled (env : Env) (url : string) (ms d : Z) (w : World) : World :=
  {| vtime := vtime w + d;
     clock_reads := clock_reads w;
     random_draws := random_draws w;
     requests := S (requests w);
     next_timer := S (next_timer w);
     timers := unschedule (next_timer w) (timers w);
     active := active w && negb (closed_by env (vtime w + d));
     trace := (trace w ++
               [ (vtime w, SetTimeout (next_timer w) (timer_delay ms));
                 (vtime w, Fetch url);
                 (vtime w + d, ClearTimeout (next_timer w)) ])%list |}.

(** The world after [fetchWithTimeout url ms] started in [w] and the timer
    fired first. *)
Definition aborted (env : Env) (url : string) (ms : Z) (w : World) : World :=
  let t := vtime w + timer_delay ms in
  {| vtime := t;
     clock_reads := clock_reads w;
     random_draws := random_draws w;
     requests := S (requests w);
     next_timer := S (next_timer w);
     timers := unschedule (next_timer w) (timers w);
     active := active w && negb (closed_by env t);
     trace := (trace w ++
               [ (vtime w, SetTimeout (next_timer w) (timer_delay ms));
                 (vtime w, Fetch url);
                 (t, TimerFired (next_timer w));
                 (t, AbortSignal (next_timer w));
                 (t, ClearTimeout (next_timer w)) ])%list |}.

(** The three items in their fixed order, with flags and a timestamp. *)
Definition stock (b1 b2 b3 : bool) (now : string) : list StockItem :=
  [ {| category := "Seeds"; item := "Sunflower Seed"; inStock := b1; lastSeen := now |};
    {| category := "Eggs"; item := "Chicken Egg"; inStock := b2; lastSeen := now |};
    {| category := "Gear"; item := "Watering Can"; inStock := b3; lastSeen := now |} ].

Definition labels (l : list StockItem) : list (string * string) :=
  map (fun it => (category it, item it)) l.

Definition fixed_labels : list (string * string) :=
  [ ("Seeds", "Sunflower Seed"); ("Eggs", "Chicken Egg"); ("Gear", "Watering Can") ].

(** Events of the abort timer: all that a provider call does after it has
    armed the timer and started the request. *)
Definition timer_event (e : Event) : bool :=
  match e with
  | TimerFired _ | AbortSignal _ | ClearTimeout _ => true
  | _ => false
  end.

Definition is_write (e : Event) : bool :=
  match e with
  | ResWrite _ => true
  | _ => false
  end.

Definition is_fetch (e : Event) : bool :=
  match e with
  | Fetch _ => true
  | _ => false
  end.

(** The response to the next upstream request arrives in time, and the read
    of its body never completes. *)
Definition stalls (env : Env) (w : World) : bool :=
  match net env (requests w) with
  | Responds d r =>
      match body r with
      | BodyStalls => Z.of_N d <? 2000
      | _ => false
      end
  | _ => false
  end.


(** The count that the specification reads in field [k] of the body: the
    integer found there, and [0] when the field is missing or [null]. *)
Definition count (repo : JS.json) (k : string) : option Z :=
  match JS.Get repo k with
  | inr JS.Undefined => Some 0
  | inr (JS.Val JS.JNull) => Some 0
  | inr (JS.Val (JS.JNum (JS.Int z))) => Some z
  | _ => None
  end.

(** How a provider call that returns leaves the world; [j] numbers the
    reading of the clock that stamps the items. *)
Record provided (env : Env) (w w' : World) (j : nat) : Prop := {
  pv_clock : (clock_reads w <= j)%nat /\ clock_reads w' = S j;
  pv_requests : requests w' = S (requests w);
  pv_timers : next_timer w' = S (next_timer w)
              /\ timers w' = unschedule (next_timer w) (timers w);
  pv_time : vtime w <= vtime w';
  pv_active : active w' = active w && negb (closed_by env (vtime w'));
  pv_trace : exists evs,
      trace w' = (trace w ++ (vtime w, SetTimeout (next_timer w) 2000)
                          :: (vtime w, Fetch source) :: evs)%list
      /\ Forall (fun te => timer_event (snd te) = true /\ vtime w <= fst te <= vtime w') evs
}.

(** The payload a handler builds from the provider's items. *)
Definition payload_of (env : Env) (its : list StockItem) (w : World) : Payload :=
  {| updatedAt := Iso.toISOString (wall env (clock_reads w)); items := its |}.

(** The world after one turn of the loop of [tick]: the provider returned
    [its] in [w1], the event was written and the 10 s timer has fired. *)
Definition published (env : Env) (its : list StockItem) (w1 : World) : World :=
  let t := vtime w1 + 10000 in
  {| vtime := t;
     clock_reads := S (clock_reads w1);
     random_draws := random_draws w1;
     requests := requests w1;
     next_timer := S (next_timer w1);
     timers := unschedule (next_timer w1) (timers w1);
     active := active w1 && negb (closed_by env t);
     trace := (trace w1 ++
               [ (vtime w1, ResWrite (event_line "stock"));
                 (vtime w1, ResWrite (data_line (Stringify.payload (payload_of env its w1))));
                 (vtime w1, SetTimeout (next_timer w1) 10000);
                 (t, TimerFired (next_timer w1)) ])%list |}.

(** The world in which the loop of a subscription starts. *)
Definition subscribed (w : World) : World :=
  set_loop (vtime w) true (log (WriteHead 200 sse_headers) w).

(** A snapshot as the handlers serve it: the items carry one reading of the
    clock, [updatedAt] the next one. *)
Definition served (env : Env) (p : Payload) : Prop :=
  exists j b1 b2 b3,
    items p = stock b1 b2 b3 (Iso.toISOString (wall env j))
    /\ updatedAt p = Iso.toISOString (wall env (S j)).

(** The items carry one reading of the clock, identical across them, and
    [updatedAt] the next reading; where the two readings agree, so do
    [lastSeen] and [updatedAt]. *)
Definition same_stamp (env : Env) (p : Payload) : Prop :=
  exists j,
    (forall it, In it (items p) -> lastSeen it = Iso.toISOString (wall env j))
    /\ updatedAt p = Iso.toISOString (wall env (S j))
    /\ (wall env j = wall env (S j) ->
        forall it, In it (items p) -> lastSeen it = updatedAt p).

(** The items carry a reading of the clock that is not after the later
    reading [updatedAt] carries. *)
Definition stamps_in_order (env : Env) (p : Payload) : Prop :=
  exists j,
    (forall it, In it (items p) -> lastSeen it = Iso.toISOString (wall env j))
    /\ updatedAt p = Iso.toISOString (wall env (S j))
    /\ wall env j <= wall env (S j).

(** Every snapshot that an event serves satisfies [Q]: the payload of a
    response, and the payload in the data line of a streamed event. *)
Definition serves (Q : Payload -> Prop) (te : Z * Event) : Prop :=
  match snd te with
  | ResJson _ p => Q p
  | ResWrite c =>
      c = event_line "stock"
      \/ exists p, c = data_line (Stringify.payload p) /\ Q p
  | _ => True
  end.

(** Writes at or after time [tc]. *)
Definition late_writes (tc : Z) (tr : list (Z * Event)) : nat :=
  List.length (filter (fun te => is_write (snd te) && (tc <=? fst te)) tr).

(** An upstream request, if the event is one, starts before [tc]. *)
Definition fetch_before (tc : Z) (te : Z * Event) : Prop :=
  is_fetch (snd te) = true -> fst te < tc.

Definition monotone (clock : nat -> Z) : Prop :=
  forall i j, (i <= j)%nat -> clock i <= clock j.

(** ** Environments of the examples *)

Definition github (stars issues : JS.json) : JS.json :=
  JS.JObj [ ("id", JS.JNum (JS.Int 70107786));
            ("stargazers_count", stars);
            ("open_issues_count", issues) ].

Definition num (z : Z) : JS.json := JS.JNum (JS.Int z).

(** Every request is answered after 300 ms with a body read in 20 ms; the
    clock advances by 1 ms from one reading to the next; every draw is
    [r]. *)
Definition answering (repo : JS.json) (r : Q) (closes : option Z) : Env :=
  {| wall := fun k => 1700000000000 + Z.of_nat k;
     random := fun _ => r;
     net := fun _ => Responds 300 {| body := BodyJson 20 repo |};
     closes_at := closes |}.

(** No request is ever answered. *)
Definition silent (r : Q) : Env :=
  {| wall := fun k => 1700000000000 + Z.of_nat k;
     random := fun _ => r;
     net := fun _ => Silent;
     closes_at := None |}.

(** ** Vocabulary of the further properties *)

(** The network has not settled the next request when the 2000 ms timer
    comes due. *)
Definition unanswered (env : Env) (w : World) : bool :=
  match settles (net env (requests w)) with
  | Some (d, _) => 2000 <=? d
  | None => true
  end.

(** The [try] block of the next provider call throws: every case of
    [fails], and a coercion of a count that throws. *)
Definition falls_back (env : Env) (w : World) : bool :=
  match net env (requests w) with
  | Responds d r =>
      if Z.of_N d <? 2000 then
        match body r with
        | BodyJson _ repo =>
            match parity repo "stargazers_count" 0, parity repo "open_issues_count" 1 with
            | inr _, inr _ => false
            | _, _ => true
            end
        | BodyStalls => false
        | _ => true
        end
      else true
  | _ => true
  end.

(** Every pending timer was created before the next one will be. *)
Definition fresh_timers (w : World) : Prop :=
  Forall (fun x => (fst x < next_timer w)%nat) (timers w).

(** The chunks written to the response, in order. *)
Definition chunks (tr : list (Z * Event)) : list string :=
  flat_map (fun te => match snd te with ResWrite c => [c] | _ => [] end) tr.

(** The chunks of a sequence of whole "stock" events. *)
Definition frames (ps : list Payload) : list string :=
  flat_map (fun p => [event_line "stock"; data_line (Stringify.payload p)]) ps.

(** Neither a response head nor a JSON response. *)
Definition loop_event (e : Event) : bool :=
  match e with
  | WriteHead _ _ | ResJson _ _ => false
  | _ => true
  end.

(** Line feed or carriage return: what ends a line of an event stream. *)
Definition is_break (c : ascii) : bool :=
  let n := nat_of_ascii c in ((n =? 10) || (n =? 13))%nat.

Fixpoint breaks (s : string) : nat :=
  match s with
  | EmptyString => 0
  | String c rest => ((if is_break c then 1 else 0) + breaks rest)%nat
  end.

(** No body read of this environment stalls. *)
Definition never_stalls (env : Env) : Prop :=
  forall w, stalls env w = false.

(** Every request is answered after 300 ms, and the body never arrives. *)
Definition stalling : Env :=
  {| wall := fun k => 1700000000000 + Z.of_nat k;
     random := fun _ => 0%Q;
     net := fun _ => Responds 300 {| body := BodyStalls |};
     closes_at := None |}.

(** Every request is rejected by the network after 50 ms. *)
Definition failing : Env :=
  {| wall := fun k => 1700000000000 + Z.of_nat k;
     random := fun _ => 0%Q;
     net := fun _ => Fails 50;
     closes_at := None |}.

(** Field [k] of the body reads as a scalar or not at all: missing, [null],
    a boolean, a number or a string. *)
Definition scalar_field (repo : JS.json) (k : string) : bool :=
  match JS.Get repo k with
  | inr JS.Undefined => true
  | inr (JS.Val (JS.JNull | JS.JBool _ | JS.JNum _ | JS.JStr _ _)) => true
  | _ => false
  end.

(** * Properties *)

(** ** Sanity checks of the runtime model *)

Example toISOString_epoch : Iso.toISOString 0 = "1970-01-01T00:00:00.000Z".
Proof. reflexivity. Qed.

Example toISOString_2023 :
  Iso.toISOString 1700000000001 = "2023-11-14T22:13:20.001Z".
Proof. vm_compute. reflexivity. Qed.

Example toISOString_leap :
  Iso.toISOString 1709251199999 = "2024-02-29T23:59:59.999Z".
Proof. vm_compute. reflexivity. Qed.

Example toISOString_before_epoch :
  Iso.toISOString (-1) = "1969-12-31T23:59:59.999Z".
Proof. vm_compute. reflexivity. Qed.

(** ** Timers *)

Lemma due_unschedule id l : due id (unschedule id l) = None.
Proof.
  induction l as [|[i t] l IH]; simpl; [reflexivity|].
  destruct (Nat.eqb_spec i id); simpl; [assumption|].
  destruct (Nat.eqb_spec i id); [contradiction|assumption].
Qed.

Lemma unschedule_head id t l : unschedule id ((id, t) :: l) = unschedule id l.
Proof. unfold unschedule. simpl. rewrite Nat.eqb_refl. reflexivity. Qed.

Lemma unschedule_idem id l : unschedule id (unschedule id l) = unschedule id l.
Proof.
  unfold unschedule. induction l as [|[i t] l IH]; simpl; [reflexivity|].
  destruct (Nat.eqb_spec i id); simpl; [assumption|].
  destruct (Nat.eqb_spec i id); [contradiction|]. simpl. now rewrite IH.
Qed.

Lemma timer_delay_pos ms : 1 <= timer_delay ms.
Proof.
  unfold timer_delay. destruct (Z.ltb_spec ms 1); simpl; [lia|].
  destruct (2147483647 <? ms); lia.
Qed.

Lemma timer_delay_2000 : timer_delay 2000 = 2000.
Proof. reflexivity. Qed.

Lemma timer_delay_10000 : timer_delay 10000 = 10000.
Proof. reflexivity. Qed.

(** ** The [close] event *)

Lemma closed_by_mono env t t' :
  t <= t' -> closed_by env t = true -> closed_by env t' = true.
Proof.
  unfold closed_by. destruct (closes_at env); [|discriminate].
  intros H H1. apply Z.leb_le in H1. apply Z.leb_le. lia.
Qed.

Lemma still_active env a t t' :
  t <= t' ->
  (a && negb (closed_by env t)) && negb (closed_by env t') = a && negb (closed_by env t').
Proof.
  intros H. destruct a; simpl; [|reflexivity].
  destruct (closed_by env t) eqn:E; simpl; [|reflexivity].
  now rewrite (closed_by_mono env t t' H E).
Qed.

Lemma active_before env tc a t :
  closes_at env = Some tc -> a && negb (closed_by env t) = true -> t < tc.
Proof.
  unfold closed_by. intros ->. destruct a; simpl; [|discriminate].
  destruct (Z.leb_spec tc t); [discriminate|lia].
Qed.

(** ** [fetchWithTimeout], step by step *)

Arguments unschedule : simpl never.
Arguments timer_delay : simpl never.
Arguments Iso.toISOString : simpl never.
Arguments Stringify.payload : simpl never.
Arguments event_line : simpl never.
Arguments data_line : simpl never.

Lemma world_eq w w' :
  vtime w = vtime w' -> clock_reads w = clock_reads w' ->
  random_draws w = random_draws w' -> requests w = requests w' ->
  next_timer w = next_timer w' -> timers w = timers w' ->
  active w = active w' -> trace w = trace w' ->
  w = w'.
Proof. destruct w, w'. simpl. intros; subst; reflexivity. Qed.

Ltac by_time :=
  repeat match goal with
  | |- context [ ?a + Z.max 0 (?a + ?b - ?a) ] =>
      replace (a + Z.max 0 (a + b - a)) with (a + b) by lia
  | |- context [ Z.max 0 (Z.of_N ?d) ] =>
      rewrite (Z.max_r 0 (Z.of_N d)) by lia
  end.

(** Two worlds are equal field by field. *)
Ltac same_world :=
  apply world_eq; cbn;
  rewrite ?unschedule_head, ?unschedule_idem, <- ?app_assoc;
  by_time; reflexivity.

Lemma fetchWithTimeout_spec env url ms w :
  fetchWithTimeout env url ms w =
  match settles (net env (requests w)) with
  | Some (d, r) =>
      if d <? timer_delay ms then (completion r, settled env url ms d w)
      else (Throw JS.AbortError, aborted env url ms w)
  | None => (Throw JS.AbortError, aborted env url ms w)
  end.
Proof.
  pose proof (timer_delay_pos ms) as Hpos.
  unfold fetchWithTimeout, fetch, setTimeout.
  destruct w as [vt cr rd rq nt tm ac tr]. cbn.
  rewrite Nat.eqb_refl.
  destruct (net env rq) as [d r|d|]; cbn;
    try (destruct (Z.ltb_spec (vt + Z.of_N d) (vt + timer_delay ms));
         destruct (Z.ltb_spec (Z.of_N d) (timer_delay ms)); try lia; cbn);
    f_equal; same_world.
Qed.

Lemma simulateStock_spec env w :
  simulateStock env w =
  (Normal (stock (over_half (random env (random_draws w)))
                 (over_half (random env (S (random_draws w))))
                 (over_half (random env (S (S (random_draws w)))))
                 (Iso.toISOString (wall env (clock_reads w)))),
   set_counters (S (clock_reads w)) (S (S (S (random_draws w)))) (requests w) w).
Proof. destruct w. reflexivity. Qed.

Arguments fetchWithTimeout : simpl never.
Arguments simulateStock : simpl never.

(** ** [fetchMockStock], case by case *)

Lemma fetchMockStock_eq env w :
  fetchMockStock env w =
  match net env (requests w) with
  | Responds d r =>
      if Z.of_N d <? 2000 then
        let w1 := settled env source 2000 (Z.of_N d) w in
        match body r with
        | BodyJson d' repo =>
            let w2 := elapse env (Z.of_N d') w1 in
            let w3 := set_counters (S (clock_reads w2)) (random_draws w2) (requests w2) w2 in
            match parity repo "stargazers_count" 0, parity repo "open_issues_count" 1 with
            | inr s1, inr s2 =>
                (Normal (stock s1 s2 true (Iso.toISOString (wall env (clock_reads w)))), w3)
            | _, _ => simulateStock env w3
            end
        | BodyMalformed d' | BodyFails d' => simulateStock env (elapse env (Z.of_N d') w1)
        | BodyStalls => (Never, w1)
        end
      else simulateStock env (aborted env source 2000 w)
  | Fails d =>
      if Z.of_N d <? 2000 then simulateStock env (settled env source 2000 (Z.of_N d) w)
      else simulateStock env (aborted env source 2000 w)
  | Silent => simulateStock env (aborted env source 2000 w)
  end.
Proof.
  unfold fetchMockStock, fetchMockStock_try. cbn.
  rewrite fetchWithTimeout_spec, timer_delay_2000.
  destruct (net env (requests w)) as [d [b]|d|]; cbn;
    try (destruct (Z.of_N d <? 2000); reflexivity); try reflexivity.
  destruct (Z.of_N d <? 2000); [|reflexivity]. cbn.
  destruct b as [d' repo|d'|d'|]; cbn; try reflexivity.
  destruct (parity repo "stargazers_count" 0) as [e1|s1]; cbn; [reflexivity|].
  destruct (parity repo "open_issues_count" 1) as [e2|s2]; cbn; reflexivity.
Qed.

Ltac solve_provided :=
  split; cbn; rewrite ?timer_delay_2000;
  [ split; [lia|reflexivity]
  | reflexivity
  | split; reflexivity
  | lia
  | rewrite ?Z.max_r by lia; try rewrite still_active by lia; reflexivity
  | eexists; split;
    [ reflexivity
    | repeat (constructor; [simpl; split; [reflexivity|lia]|]); constructor ] ].

Ltac provide :=
  rewrite ?simulateStock_spec; cbn;
  do 5 eexists; (split; [reflexivity|]); solve_provided.

Lemma fetchMockStock_provides env w :
  if stalls env w
  then exists d, 0 <= d < 2000
                 /\ fetchMockStock env w = (Never, settled env source 2000 d w)
  else exists j b1 b2 b3 w',
         fetchMockStock env w
         = (Normal (stock b1 b2 b3 (Iso.toISOString (wall env j))), w')
         /\ provided env w w' j.
Proof.
  rewrite fetchMockStock_eq. unfold stalls.
  destruct w as [vt cr rd rq nt tm ac tr]; cbn.
  destruct (net env rq) as [d [b]|d|]; cbn.
  - destruct (Z.ltb_spec (Z.of_N d) 2000).
    + destruct b as [d' repo|d'|d'|]; cbn.
      * destruct (parity repo "stargazers_count" 0) as [e1|s1];
          [|destruct (parity repo "open_issues_count" 1) as [e2|s2]]; provide.
      * provide.
      * provide.
      * exists (Z.of_N d). split; [lia|reflexivity].
    + destruct b; provide.
  - destruct (Z.ltb_spec (Z.of_N d) 2000); provide.
  - provide.
Qed.

Arguments fetchMockStock : simpl never.

(** ** The handlers, step by step *)

Lemma get_api_stock_eq env w :
  get_api_stock env w =
  match fetchMockStock env w with
  | (Normal its, w1) =>
      (Normal tt,
       log (ResJson 200 (payload_of env its w1))
           (set_counters (S (clock_reads w1)) (random_draws w1) (requests w1) w1))
  | (Throw e, w1) => (Throw e, w1)
  | (Never, w1) => (Never, w1)
  end.
Proof.
  unfold get_api_stock. cbn.
  destruct (fetchMockStock env w) as [[its|e|] w1]; reflexivity.
Qed.

Lemma tick_eq env fuel w :
  tick env (S fuel) w =
  if active w then
    match fetchMockStock env w with
    | (Normal its, w1) => tick env fuel (published env its w1)
    | (Throw e, w1) => (Throw e, w1)
    | (Never, w1) => (Never, w1)
    end
  else (Normal tt, w).
Proof.
  cbn. destruct (active w); [|reflexivity].
  destruct (fetchMockStock env w) as [[its|e|] w1]; try reflexivity.
  unfold sleep, setTimeout. cbn. rewrite Nat.eqb_refl.
  f_equal. destruct w1 as [vt cr rd rq nt tm ac tr].
  apply world_eq; cbn; rewrite ?timer_delay_10000;
    rewrite ?unschedule_head, <- ?app_assoc; by_time; reflexivity.
Qed.

Lemma tick_inactive env fuel w :
  active w = false -> tick env fuel w = (Normal tt, w).
Proof. intros H. destruct fuel; [reflexivity|]. rewrite tick_eq, H. reflexivity. Qed.

Lemma get_api_stock_stream_eq env fuel w :
  get_api_stock_stream env fuel w = tick env fuel (subscribed w).
Proof. reflexivity. Qed.

(** ** Invariants of the loop of [tick] *)

Section Loop.

Variable env : Env.
Variable I : World -> Prop.

Hypothesis I_stalled :
  forall w d, I w -> active w = true -> stalls env w = true -> 0 <= d < 2000 ->
              I (settled env source 2000 d w).

Hypothesis I_published :
  forall w j b1 b2 b3 w1,
    I w -> active w = true ->
    fetchMockStock env w = (Normal (stock b1 b2 b3 (Iso.toISOString (wall env j))), w1) ->
    provided env w w1 j ->
    I (published env (stock b1 b2 b3 (Iso.toISOString (wall env j))) w1).

Lemma tick_invariant fuel : forall w, I w -> I (snd (tick env fuel w)).
Proof.
  induction fuel as [|fuel IH]; intros w Hw; [exact Hw|].
  rewrite tick_eq. destruct (active w) eqn:Ha; [|exact Hw].
  pose proof (fetchMockStock_provides env w) as Hp.
  destruct (stalls env w) eqn:Hs.
  - destruct Hp as (d & Hd & ->). simpl. now apply I_stalled.
  - destruct Hp as (j & b1 & b2 & b3 & w1 & Hf & Hpv). rewrite Hf.
    apply IH. now apply I_published with (w := w).
Qed.

End Loop.

Lemma timer_event_serves Q t e : timer_event e = true -> serves Q (t, e).
Proof. destruct e; simpl; intros H; try discriminate; exact Logic.I. Qed.

Lemma timer_events_serve Q evs t1 t2 :
  Forall (fun te => timer_event (snd te) = true /\ t1 <= fst te <= t2) evs ->
  Forall (serves Q) evs.
Proof.
  intros H. eapply Forall_impl; [|exact H].
  intros [t e] [He _]. now apply timer_event_serves.
Qed.

Lemma served_payload_of env b1 b2 b3 j w1 :
  clock_reads w1 = S j ->
  served env (payload_of env (stock b1 b2 b3 (Iso.toISOString (wall env j))) w1).
Proof. intros H. exists j, b1, b2, b3. unfold payload_of. simpl. now rewrite H. Qed.

(** Whatever the loop adds to the trace serves snapshots as [served]
    describes them. *)
Lemma tick_serves env fuel w :
  exists evs, trace (snd (tick env fuel w)) = (trace w ++ evs)%list
              /\ Forall (serves (served env)) evs.
Proof.
  apply (tick_invariant env
           (fun w' => exists evs, trace w' = (trace w ++ evs)%list
                                  /\ Forall (serves (served env)) evs)).
  - intros w0 d (evs & Ht & Hf) _ _ _. simpl. rewrite Ht, <- app_assoc.
    eexists. split; [reflexivity|].
    apply Forall_app. split; [assumption|]. repeat constructor.
  - intros w0 j b1 b2 b3 w1 (evs & Ht & Hf) _ _ Hpv.
    destruct (pv_trace _ _ _ _ Hpv) as (evs' & Ht' & Hf').
    destruct (pv_clock _ _ _ _ Hpv) as [_ Hc].
    simpl. rewrite Ht', Ht. repeat rewrite <- app_assoc. simpl.
    eexists. split; [reflexivity|].
    apply Forall_app. split; [assumption|].
    constructor; [exact Logic.I|]. constructor; [exact Logic.I|].
    apply Forall_app. split; [exact (timer_events_serve _ _ _ _ Hf')|].
    constructor; [now left|].
    constructor; [right; eexists; split; [reflexivity|now apply served_payload_of]|].
    repeat constructor.
  - exists []. rewrite app_nil_r. split; [reflexivity|constructor].
Qed.

(** ** Writes after the [close] event *)

Lemma late_writes_app tc a b :
  late_writes tc (a ++ b) = (late_writes tc a + late_writes tc b)%nat.
Proof. unfold late_writes. now rewrite filter_app, length_app. Qed.

Lemma late_writes_timer tc evs t1 t2 :
  Forall (fun te => timer_event (snd te) = true /\ t1 <= fst te <= t2) evs ->
  late_writes tc evs = 0%nat.
Proof.
  unfold late_writes. induction 1 as [|[t e] l [He _] _ IH]; [reflexivity|].
  simpl in *. destruct e; try discriminate; simpl; exact IH.
Qed.

Lemma timer_events_not_fetch tc evs t1 t2 :
  Forall (fun te => timer_event (snd te) = true /\ t1 <= fst te <= t2) evs ->
  Forall (fetch_before tc) evs.
Proof.
  intros H. eapply Forall_impl; [|exact H].
  intros [t e] [He _]. unfold fetch_before. destruct e; simpl in *; discriminate.
Qed.

Lemma tick_closure env tc fuel w :
  closes_at env = Some tc ->
  (active w = true -> vtime w < tc) ->
  let w' := snd (tick env fuel w) in
  exists evs, trace w' = (trace w ++ evs)%list
              /\ Forall (fetch_before tc) evs
              /\ (late_writes tc evs <= if active w' then 0 else 2)%nat.
Proof.
  intros Hc Hw. simpl.
  enough (H : (fun w' =>
                 (active w' = true -> vtime w' < tc)
                 /\ exists evs, trace w' = (trace w ++ evs)%list
                                /\ Forall (fetch_before tc) evs
                                /\ (late_writes tc evs <= if active w' then 0 else 2)%nat)
                (snd (tick env fuel w))) by (apply H).
  apply tick_invariant.
  - intros w0 d (Hb & evs & Ht & Hf & Hl) Ha _ Hd.
    rewrite Ha in Hl. specialize (Hb Ha). split.
    + simpl. intros H. eapply active_before; eauto.
    + simpl trace. rewrite Ht, <- app_assoc.
      eexists. split; [reflexivity|]. split.
      * apply Forall_app. split; [assumption|].
        repeat constructor; unfold fetch_before; simpl; try discriminate. intros _; exact Hb.
      * rewrite late_writes_app. cbn. lia.
  - intros w0 j b1 b2 b3 w1 (Hb & evs & Ht & Hf & Hl) Ha _ Hpv.
    rewrite Ha in Hl. specialize (Hb Ha).
    destruct (pv_trace _ _ _ _ Hpv) as (evs' & Ht' & Hf').
    pose proof (pv_active _ _ _ _ Hpv) as Hact. rewrite Ha in Hact. simpl in Hact.
    split.
    + simpl. intros H. eapply active_before; eauto.
    + simpl trace. rewrite Ht', Ht. repeat rewrite <- app_assoc. simpl.
      eexists. split; [reflexivity|]. split.
      * apply Forall_app. split; [assumption|].
        constructor; [unfold fetch_before; simpl; discriminate|].
        constructor; [unfold fetch_before; simpl; intros _; exact Hb|].
        apply Forall_app. split; [exact (timer_events_not_fetch _ _ _ _ Hf')|].
        repeat constructor; unfold fetch_before; simpl; discriminate.
      * rewrite late_writes_app.
        change ((?a, ?x) :: (?b, ?y) :: evs' ++ ?l)%list
          with ([(a, x); (b, y)] ++ evs' ++ l)%list.
        rewrite !late_writes_app, (late_writes_timer tc evs' _ _ Hf').
        simpl active. rewrite Hact. cbn.
        unfold closed_by. rewrite Hc.
        destruct (Z.leb_spec tc (vtime w1)); simpl; lia.
  - split; [assumption|]. exists []. rewrite app_nil_r.
    split; [reflexivity|]. split; [constructor|]. cbn. destruct (active w); lia.
Qed.

(** ** Parity of the counts (C1) *)

Lemma rem2_even z : (Z.rem z 2 =? 0) = Z.even z.
Proof.
  destruct (Z.even z) eqn:E.
  - apply Z.eqb_eq. apply Z.even_spec in E. destruct E as [k ->].
    rewrite Z.mul_comm. now apply Z.rem_mul.
  - apply Z.eqb_neq. intros H. apply Z.rem_divide in H; [|lia].
    destruct H as [k ->]. rewrite Z.mul_comm, Z.even_mul in E. discriminate.
Qed.

Lemma rem2_odd z : 0 <= z -> (Z.rem z 2 =? 1) = Z.odd z.
Proof.
  intros H. rewrite Z.rem_mod_nonneg by lia. rewrite Zmod_odd.
  destruct (Z.odd z); reflexivity.
Qed.

Lemma parity_even repo k z :
  count repo k = Some z -> parity repo k 0 = inr (Z.even z).
Proof.
  unfold count, parity.
  destruct (JS.Get repo k) as [e|[|[|b|[x|]|s n|l n|f]]]; try discriminate;
    intros [= <-]; simpl; try reflexivity.
  now rewrite rem2_even.
Qed.

Lemma parity_odd repo k z :
  count repo k = Some z -> 0 <= z -> parity repo k 1 = inr (Z.odd z).
Proof.
  unfold count, parity.
  destruct (JS.Get repo k) as [e|[|[|b|[x|]|s n|l n|f]]]; try discriminate;
    intros [= <-] Hz; simpl; try reflexivity.
  now rewrite rem2_odd.
Qed.

(** C1, as stated, fails: a body that parses as JSON to [null] makes the
    property read throw, and the provider answers with the placeholder, in
    which the third item need not be in stock. *)
Lemma null_body_is_no_success :
  net (answering JS.JNull 0 None) (requests boot)
  = Responds 300 {| body := BodyJson 20 JS.JNull |}
  /\ fst (fetchMockStock (answering JS.JNull 0 None) boot)
     = Normal (stock false false false "2023-11-14T22:13:20.001Z").
Proof. split; [reflexivity|vm_compute; reflexivity]. Qed.

(** [%] keeps the sign of the dividend: a negative odd count is not
    reported as odd. *)
Example negative_odd_issues :
  fst (fetchMockStock (answering (github (num 4) (num (-3))) 0 None) boot)
  = Normal (stock true false true "2023-11-14T22:13:20.000Z").
Proof. vm_compute. reflexivity. Qed.

Example stars_4_issues_5 :
  fst (fetchMockStock (answering (github (num 4) (num 5)) 0 None) boot)
  = Normal (stock true true true "2023-11-14T22:13:20.000Z").
Proof. vm_compute. reflexivity. Qed.

Example stars_3_issues_2 :
  fst (fetchMockStock (answering (github (num 3) (num 2)) 0 None) boot)
  = Normal (stock false false true "2023-11-14T22:13:20.000Z").
Proof. vm_compute. reflexivity. Qed.

(** C1, amended: when the response arrives before the 2000 ms timer and its
    body parses as JSON to a value other than [null] in which each of
    [stargazers_count] and [open_issues_count] is missing, [null] or an
    integer, the latter not negative, then item 1 is in stock iff the first
    count is even, item 2 iff the second is odd, and item 3 always; a
    missing or [null] field counts as 0. *)
Theorem parity_of_counts env w d d' repo p q :
  net env (requests w) = Responds d {| body := BodyJson d' repo |} ->
  Z.of_N d < 2000 ->
  count repo "stargazers_count" = Some p ->
  count repo "open_issues_count" = Some q ->
  0 <= q ->
  exists w',
    fetchMockStock env w
    = (Normal (stock (Z.even p) (Z.odd q) true
                     (Iso.toISOString (wall env (clock_reads w)))), w').
Proof.
  intros Hnet Hd Hp Hq Hq0. rewrite fetchMockStock_eq, Hnet.
  apply Z.ltb_lt in Hd. rewrite Hd. cbn [body].
  rewrite (parity_even _ _ _ Hp), (parity_odd _ _ _ Hq Hq0).
  eexists. reflexivity.
Qed.

Lemma parity_of_counts_witness :
  exists w',
    fetchMockStock (answering (github (num 4) JS.JNull) 0 None) boot
    = (Normal (stock (Z.even 4) (Z.odd 0) true
                     (Iso.toISOString
                        (wall (answering (github (num 4) JS.JNull) 0 None)
                              (clock_reads boot)))), w').
Proof.
  apply (parity_of_counts (answering (github (num 4) JS.JNull) 0 None) boot
           300%N 20%N (github (num 4) JS.JNull) 4 0);
    [reflexivity|reflexivity|reflexivity|reflexivity|lia].
Defined.

(** ** The provider never fails (C2) *)

Lemma fetchMockStock_catches env w e w1 :
  fetchMockStock_try env w = (Throw e, w1) ->
  fetchMockStock env w = simulateStock env w1.
Proof. unfold fetchMockStock. cbn. intros ->. reflexivity. Qed.

(** C2, as stated, fails: the timer is cleared when the response arrives,
    and nothing bounds the read of the body.  With a response after 300 ms
    whose body never arrives the provider does not return and the one-shot
    handler never responds. *)
Lemma stalled_body_is_never_answered :
  net stalling (requests boot) = Responds 300 {| body := BodyStalls |}
  /\ fst (fetchMockStock stalling boot) = Never
  /\ fst (get_api_stock stalling boot) = Never
  /\ trace (snd (get_api_stock stalling boot))
     = [ (0, SetTimeout 0 2000); (0, Fetch source); (300, ClearTimeout 0) ].
Proof. vm_compute. repeat split. Qed.

(** C2, amended: [fetchMockStock] never throws, and neither does the
    one-shot handler; an exception caught in the [try] block is answered
    with the placeholder of [simulateStock].  Whenever the read of the body
    settles, the provider returns the three items and the handler responds
    with status 200 and the snapshot built from them.  When the response
    arrives before the timer and its body never does, the provider does not
    return and the handler never responds. *)
Theorem provider_never_throws env w :
  (forall e w', fetchMockStock env w <> (Throw e, w'))
  /\ (forall e w', get_api_stock env w <> (Throw e, w'))
  /\ (forall e w1, fetchMockStock_try env w = (Throw e, w1) ->
                   fetchMockStock env w = simulateStock env w1)
  /\ (if stalls env w
      then exists d,
          0 <= d < 2000
          /\ fetchMockStock env w = (Never, settled env source 2000 d w)
          /\ get_api_stock env w = (Never, settled env source 2000 d w)
      else exists b1 b2 b3 j w1,
          fetchMockStock env w
          = (Normal (stock b1 b2 b3 (Iso.toISOString (wall env j))), w1)
          /\ get_api_stock env w
             = (Normal tt,
                log (ResJson 200 {| updatedAt := Iso.toISOString (wall env (S j));
                                    items := stock b1 b2 b3 (Iso.toISOString (wall env j)) |})
                    (set_counters (S (S j)) (random_draws w1) (requests w1) w1))).
Proof.
  pose proof (fetchMockStock_provides env w) as Hp.
  split; [|split; [|split]].
  - intros e w' H. rewrite H in Hp.
    destruct (stalls env w);
      [destruct Hp as (? & _ & ?)|destruct Hp as (? & ? & ? & ? & ? & ? & _)];
      discriminate.
  - intros e w' H. rewrite get_api_stock_eq in H.
    destruct (stalls env w);
      [destruct Hp as (? & _ & Hp)|destruct Hp as (? & ? & ? & ? & ? & Hp & _)];
      rewrite Hp in H; discriminate.
  - apply fetchMockStock_catches.
  - destruct (stalls env w).
    + destruct Hp as (d & Hd & Hp). exists d. split; [exact Hd|].
      split; [exact Hp|]. rewrite get_api_stock_eq, Hp. reflexivity.
    + destruct Hp as (j & b1 & b2 & b3 & w1 & Hp & Hpv).
      exists b1, b2, b3, j, w1. split; [exact Hp|].
      rewrite get_api_stock_eq, Hp. unfold payload_of.
      destruct (pv_clock _ _ _ _ Hpv) as [_ ->]. reflexivity.
Qed.

Lemma provider_never_throws_witness :
  fetchMockStock (silent 0) boot
  = simulateStock (silent 0) (aborted (silent 0) source 2000 boot).
Proof.
  apply (proj1 (proj2 (proj2 (provider_never_throws (silent 0) boot)))
           JS.AbortError).
  vm_compute. reflexivity.
Defined.

(** ** Three items in a fixed order (C3) *)

(** C3: whatever [fetchMockStock] returns, whether built in its [try] block
    or by [simulateStock], is a list of exactly the three items Seeds /
    Sunflower Seed, Eggs / Chicken Egg, Gear / Watering Can, in this order;
    it returns unless the body read never completes, and it never throws. *)
Theorem three_items_in_fixed_order env w :
  match fetchMockStock env w with
  | (Normal its, _) => labels its = fixed_labels
  | (Throw _, _) => False
  | (Never, _) => stalls env w = true
  end
  /\ match fetchMockStock_try env w with
     | (Normal its, _) => labels its = fixed_labels
     | _ => True
     end
  /\ match simulateStock env w with
     | (Normal its, _) => labels its = fixed_labels
     | _ => False
     end.
Proof.
  split; [|split].
  - pose proof (fetchMockStock_provides env w) as Hp.
    destruct (stalls env w).
    + destruct Hp as (d & _ & ->). reflexivity.
    + destruct Hp as (j & b1 & b2 & b3 & w1 & -> & _). reflexivity.
  - unfold fetchMockStock_try. cbn.
    destruct (fetchWithTimeout env source 2000 w) as [[r|e|] w1]; try exact Logic.I.
    destruct (json env r w1) as [[repo|e|] w2]; try exact Logic.I. cbn.
    destruct (parity repo "stargazers_count" 0); cbn; try exact Logic.I.
    destruct (parity repo "open_issues_count" 1); cbn; try exact Logic.I.
    reflexivity.
  - rewrite simulateStock_spec. reflexivity.
Qed.

(** ** What the handlers serve (C4, C10) *)

Lemma serves_impl (Q Q' : Payload -> Prop) evs :
  (forall p, Q p -> Q' p) -> Forall (serves Q) evs -> Forall (serves Q') evs.
Proof.
  intros HQ H. eapply Forall_impl; [|exact H].
  intros [t e]. unfold serves. destruct e; simpl; auto.
  intros [H1|(p & H1 & H2)]; [now left|right; eauto].
Qed.

Lemma get_api_stock_serves env w :
  exists evs, trace (snd (get_api_stock env w)) = (trace w ++ evs)%list
              /\ Forall (serves (served env)) evs.
Proof.
  rewrite get_api_stock_eq.
  pose proof (fetchMockStock_provides env w) as Hp.
  destruct (stalls env w).
  - destruct Hp as (d & _ & ->). simpl.
    eexists. split; [reflexivity|]. repeat constructor.
  - destruct Hp as (j & b1 & b2 & b3 & w1 & -> & Hpv).
    destruct (pv_trace _ _ _ _ Hpv) as (evs & Ht & Hf).
    destruct (pv_clock _ _ _ _ Hpv) as [_ Hc].
    simpl. rewrite Ht, <- app_assoc. simpl.
    eexists. split; [reflexivity|].
    constructor; [exact Logic.I|]. constructor; [exact Logic.I|].
    apply Forall_app. split; [exact (timer_events_serve _ _ _ _ Hf)|].
    constructor; [|constructor]. now apply served_payload_of.
Qed.

Lemma get_api_stock_stream_serves env fuel w :
  exists evs, trace (snd (get_api_stock_stream env fuel w)) = (trace w ++ evs)%list
              /\ Forall (serves (served env)) evs.
Proof.
  rewrite get_api_stock_stream_eq.
  destruct (tick_serves env fuel (subscribed w)) as (evs & Ht & Hf).
  rewrite Ht. simpl. rewrite <- app_assoc. simpl.
  eexists. split; [reflexivity|]. constructor; [exact Logic.I|assumption].
Qed.

Lemma stock_lastSeen b1 b2 b3 now it :
  In it (stock b1 b2 b3 now) -> lastSeen it = now.
Proof. intros [<-|[<-|[<-|[]]]]; reflexivity. Qed.

Lemma served_same_stamp env p : served env p -> same_stamp env p.
Proof.
  intros (j & b1 & b2 & b3 & Hi & Hu). exists j. rewrite Hi, Hu.
  split; [intros it; apply stock_lastSeen|]. split; [reflexivity|].
  intros <- it H. now apply stock_lastSeen in H.
Qed.

Lemma served_in_order env p :
  monotone (wall env) -> served env p -> stamps_in_order env p.
Proof.
  intros Hm (j & b1 & b2 & b3 & Hi & Hu). exists j. rewrite Hi, Hu.
  split; [intros it; apply stock_lastSeen|]. split; [reflexivity|].
  apply Hm. lia.
Qed.

(** C4, as stated, fails: the handler reads the clock again after the
    provider has stamped the items, and the clock may have moved on. *)
Lemma updatedAt_is_a_later_reading :
  let p := {| updatedAt := "2023-11-14T22:13:20.001Z";
              items := stock true true true "2023-11-14T22:13:20.000Z" |} in
  In (320, ResJson 200 p)
     (trace (snd (get_api_stock (answering (github (num 4) (num 5)) 0 None) boot)))
  /\ forall it, In it (items p) -> lastSeen it <> updatedAt p.
Proof.
  split.
  - vm_compute. do 3 right. left. reflexivity.
  - intros it H. apply stock_lastSeen in H. rewrite H. simpl. discriminate.
Qed.

(** C4, amended: in every snapshot served by either endpoint (the response
    of the one-shot handler and the data of each streamed event) the three
    items carry the same [lastSeen], one reading of the clock; [updatedAt]
    is the next reading of the clock, and equals [lastSeen] whenever the two
    readings agree. *)
Theorem lastSeen_shared_by_items env fuel w :
  (exists evs, trace (snd (get_api_stock env w)) = (trace w ++ evs)%list
               /\ Forall (serves (same_stamp env)) evs)
  /\ (exists evs, trace (snd (get_api_stock_stream env fuel w)) = (trace w ++ evs)%list
                  /\ Forall (serves (same_stamp env)) evs).
Proof.
  split.
  - destruct (get_api_stock_serves env w) as (evs & Ht & Hf).
    exists evs. split; [assumption|].
    eapply serves_impl; [apply served_same_stamp|assumption].
  - destruct (get_api_stock_stream_serves env fuel w) as (evs & Ht & Hf).
    exists evs. split; [assumption|].
    eapply serves_impl; [apply served_same_stamp|assumption].
Qed.

(** C10: in both endpoints [updatedAt] is a reading of the clock taken
    after the one that stamps the items, so that under a monotone clock
    every [lastSeen] is at most [updatedAt]. *)
Theorem lastSeen_not_after_updatedAt env fuel w :
  monotone (wall env) ->
  (exists evs, trace (snd (get_api_stock env w)) = (trace w ++ evs)%list
               /\ Forall (serves (stamps_in_order env)) evs)
  /\ (exists evs, trace (snd (get_api_stock_stream env fuel w)) = (trace w ++ evs)%list
                  /\ Forall (serves (stamps_in_order env)) evs).
Proof.
  intros Hm. split.
  - destruct (get_api_stock_serves env w) as (evs & Ht & Hf).
    exists evs. split; [assumption|].
    eapply serves_impl; [intros p; apply served_in_order, Hm|assumption].
  - destruct (get_api_stock_stream_serves env fuel w) as (evs & Ht & Hf).
    exists evs. split; [assumption|].
    eapply serves_impl; [intros p; apply served_in_order, Hm|assumption].
Qed.

Lemma lastSeen_not_after_updatedAt_witness :
  (exists evs,
      trace (snd (get_api_stock (answering (github (num 4) (num 5)) 0 None) boot))
      = (trace boot ++ evs)%list
      /\ Forall (serves (stamps_in_order (answering (github (num 4) (num 5)) 0 None))) evs)
  /\ (exists evs,
         trace (snd (get_api_stock_stream (answering (github (num 4) (num 5)) 0 None) 2 boot))
         = (trace boot ++ evs)%list
         /\ Forall (serves (stamps_in_order (answering (github (num 4) (num 5)) 0 None))) evs).
Proof.
  apply (lastSeen_not_after_updatedAt (answering (github (num 4) (num 5)) 0 None) 2 boot).
  intros i j H. cbn [wall answering]. lia.
Defined.

(** ** The [close] event (C5) *)

(** C5, as stated, fails: the flag is tested at the head of the loop only;
    a client that goes away while the provider call is in flight is written
    to when the call returns. *)
Lemma write_after_close :
  closes_at (answering (github (num 4) (num 5)) 0 (Some 100)) = Some 100
  /\ In (320, ResWrite (event_line "stock"))
        (trace (snd (get_api_stock_stream
                       (answering (github (num 4) (num 5)) 0 (Some 100)) 3 boot)))
  /\ late_writes 100
       (trace (snd (get_api_stock_stream
                      (answering (github (num 4) (num 5)) 0 (Some 100)) 3 boot)))
     = 2%nat.
Proof.
  split; [reflexivity|]. split.
  - vm_compute. do 4 right. left. reflexivity.
  - vm_compute. reflexivity.
Qed.

(** C5, amended: the flag is tested once per turn of the loop, at its head,
    before the provider call.  For a subscription made before the [close]
    event: no upstream request starts at or after the event, at most two
    writes (the two lines of one event, that of the turn in progress) are
    made at or after it, and a loop that finds the flag down does
    nothing. *)
Theorem closure_checked_at_loop_head env tc fuel w :
  closes_at env = Some tc ->
  vtime w < tc ->
  (exists evs,
      trace (snd (get_api_stock_stream env fuel w)) = (trace w ++ evs)%list
      /\ Forall (fetch_before tc) evs
      /\ (late_writes tc evs <= 2)%nat)
  /\ (forall n w', active w' = false -> tick env n w' = (Normal tt, w')).
Proof.
  intros Hc Hw. split; [|intros n w'; apply tick_inactive].
  rewrite get_api_stock_stream_eq.
  destruct (tick_closure env tc fuel (subscribed w) Hc (fun _ => Hw))
    as (evs & Ht & Hf & Hl).
  rewrite Ht. simpl. rewrite <- app_assoc. simpl.
  eexists. split; [reflexivity|]. split.
  - constructor; [unfold fetch_before; simpl; discriminate|assumption].
  - change ((?a, ?x) :: evs)%list with ([(a, x)] ++ evs)%list.
    rewrite late_writes_app. cbn.
    destruct (active (snd (tick env fuel (subscribed w)))); lia.
Qed.

Lemma closure_checked_at_loop_head_witness :
  (exists evs,
      trace (snd (get_api_stock_stream
                    (answering (github (num 4) (num 5)) 0 (Some 100)) 3 boot))
      = (trace boot ++ evs)%list
      /\ Forall (fetch_before 100) evs
      /\ (late_writes 100 evs <= 2)%nat)
  /\ (forall n w', active w' = false ->
                   tick (answering (github (num 4) (num 5)) 0 (Some 100)) n w'
                   = (Normal tt, w')).
Proof.
  apply (closure_checked_at_loop_head
           (answering (github (num 4) (num 5)) 0 (Some 100)) 100 3 boot);
    [reflexivity|cbn [vtime boot]; lia].
Defined.

(** ** The placeholder (C6) *)





Example silence_is_answered_with_the_placeholder :
  trace (snd (get_api_stock (silent (9 # 10)) boot))
  = [ (0, SetTimeout 0 2000);
      (0, Fetch source);
      (2000, TimerFired 0);
      (2000, AbortSignal 0);
      (2000, ClearTimeout 0);
      (2000, ResJson 200 {| updatedAt := "2023-11-14T22:13:20.001Z";
                         items := stock true true true "2023-11-14T22:13:20.000Z" |}) ].
Proof. vm_compute. reflexivity. Qed.

(** ** The bound on the upstream call (C7, C9) *)

(** C7: a call of [fetchWithTimeout] settles within the delay of its timer,
    whatever the network does: if the network has not settled the request
    by then, the timer fires, its callback aborts the request through the
    controller's signal and the call rejects with [AbortError]; and the
    provider arms this timer with 2000 ms just before it starts the
    request. *)
Theorem upstream_call_is_bounded env url ms w :
  (exists r w',
      fetchWithTimeout env url ms w = (r, w')
      /\ r <> Never
      /\ vtime w <= vtime w' <= vtime w + timer_delay ms
      /\ match settles (net env (requests w)) with
         | Some (d, x) =>
             if d <? timer_delay ms
             then r = completion x /\ vtime w' = vtime w + d
             else r = Throw JS.AbortError /\ w' = aborted env url ms w
         | None => r = Throw JS.AbortError /\ w' = aborted env url ms w
         end)
  /\ timer_delay 2000 = 2000
  /\ (exists w' evs,
         snd (fetchMockStock env w) = w'
         /\ trace w' = (trace w ++ (vtime w, SetTimeout (next_timer w) 2000)
                                :: (vtime w, Fetch source) :: evs)%list).
Proof.
  pose proof (timer_delay_pos ms) as Hpos.
  split; [|split; [reflexivity|]].
  - rewrite fetchWithTimeout_spec.
    destruct (net env (requests w)) as [d r|d|]; cbn [settles];
      try destruct (Z.ltb_spec (Z.of_N d) (timer_delay ms));
      do 2 eexists; (split; [reflexivity|]);
      (split; [discriminate|]); (split; [cbn; lia|]); split; reflexivity.
  - pose proof (fetchMockStock_provides env w) as Hp.
    destruct (stalls env w).
    + destruct Hp as (d & _ & ->). do 2 eexists. split; [reflexivity|].
      cbn. rewrite timer_delay_2000. reflexivity.
    + destruct Hp as (j & b1 & b2 & b3 & w1 & -> & Hpv).
      destruct (pv_trace _ _ _ _ Hpv) as (evs & Ht & _).
      exists w1, evs. split; [reflexivity|exact Ht].
Qed.

(** C9: every call of [fetchWithTimeout] settles, by returning or by
    rethrowing, and the last thing it does before that is [clearTimeout] on
    its timer; the timer is not pending afterwards, and no other timer was
    touched. *)
Theorem abort_timer_is_cleared env url ms w :
  exists r w' evs,
    fetchWithTimeout env url ms w = (r, w')
    /\ r <> Never
    /\ trace w' = (trace w ++ evs ++ [(vtime w', ClearTimeout (next_timer w))])%list
    /\ due (next_timer w) (timers w') = None
    /\ timers w' = unschedule (next_timer w) (timers w).
Proof.
  rewrite fetchWithTimeout_spec.
  destruct (net env (requests w)) as [d r|d|]; cbn [settles];
    try destruct (Z.of_N d <? timer_delay ms);
    do 2 eexists;
    [ exists [(vtime w, SetTimeout (next_timer w) (timer_delay ms)); (vtime w, Fetch url)]
    | exists [(vtime w, SetTimeout (next_timer w) (timer_delay ms)); (vtime w, Fetch url);
              (vtime w + timer_delay ms, TimerFired (next_timer w));
              (vtime w + timer_delay ms, AbortSignal (next_timer w))]
    | exists [(vtime w, SetTimeout (next_timer w) (timer_delay ms)); (vtime w, Fetch url)]
    | exists [(vtime w, SetTimeout (next_timer w) (timer_delay ms)); (vtime w, Fetch url);
              (vtime w + timer_delay ms, TimerFired (next_timer w));
              (vtime w + timer_delay ms, AbortSignal (next_timer w))]
    | exists [(vtime w, SetTimeout (next_timer w) (timer_delay ms)); (vtime w, Fetch url);
              (vtime w + timer_delay ms, TimerFired (next_timer w));
              (vtime w + timer_delay ms, AbortSignal (next_timer w))] ];
    (split; [reflexivity|]); (split; [discriminate|]);
    (split; [reflexivity|]); (split; [apply due_unschedule|reflexivity]).
Qed.

(** ** The cycle of a subscription (C8) *)

Lemma tick_again env n w :
  tick env (S n) w
  = match tick env 1 w with
    | (Normal _, w') => tick env n w'
    | r => r
    end.
Proof.
  rewrite !tick_eq. destruct (active w) eqn:Ha; [|now rewrite tick_inactive].
  destruct (fetchMockStock env w) as [[its|e|] w1]; reflexivity.
Qed.

(** C8, as stated, fails: a turn whose provider call never returns writes
    no event and never starts its wait.  With a response whose body never
    arrives the subscription sends its head, starts the request, clears the
    timer when the response comes, and that is all, however long it is
    observed. *)
Lemma stalled_subscription_sends_no_event :
  net stalling (requests boot) = Responds 300 {| body := BodyStalls |}
  /\ fst (get_api_stock_stream stalling 3 boot) = Never
  /\ trace (snd (get_api_stock_stream stalling 3 boot))
     = [ (0, WriteHead 200 sse_headers);
         (0, SetTimeout 0 2000);
         (0, Fetch source);
         (300, ClearTimeout 0) ].
Proof. vm_compute. repeat split. Qed.

(** C8, amended: the loop starts at once on subscription: the head is
    written, the flag is up and the first turn begins with no time elapsed.
    A turn that finds the flag up makes one provider call, at once; when the
    call returns -- as it does unless the body of the response never
    arrives -- the turn writes the snapshot as one event named "stock" (the
    event line and the data line, one after the other, at the time the call
    returned), then waits 10000 ms, and then the next turn follows.  A turn
    whose call never returns writes nothing and the loop stops there; a
    turn that finds the flag down ends the loop. *)
Theorem stream_turn_by_turn env n w :
  (exists w0,
      get_api_stock_stream env n w = tick env n w0
      /\ trace w0 = (trace w ++ [(vtime w, WriteHead 200 sse_headers)])%list
      /\ vtime w0 = vtime w
      /\ active w0 = true
      /\ requests w0 = requests w
      /\ next_timer w0 = next_timer w)
  /\ (if active w then
        if stalls env w then
          exists d w',
            0 <= d < 2000
            /\ tick env 1 w = (Never, w')
            /\ trace w'
               = (trace w ++ [ (vtime w, SetTimeout (next_timer w) 2000);
                               (vtime w, Fetch source);
                               (vtime w + d, ClearTimeout (next_timer w)) ])%list
        else
          exists its w1 evs,
            fetchMockStock env w = (Normal its, w1)
            /\ fst (tick env 1 w) = Normal tt
            /\ trace (snd (tick env 1 w))
               = (trace w
                  ++ [ (vtime w, SetTimeout (next_timer w) 2000);
                       (vtime w, Fetch source) ]
                  ++ evs
                  ++ [ (vtime w1, ResWrite (event_line "stock"));
                       (vtime w1,
                        ResWrite (data_line (Stringify.payload
                          {| updatedAt := Iso.toISOString (wall env (clock_reads w1));
                             items := its |})));
                       (vtime w1, SetTimeout (next_timer w1) 10000);
                       (vtime w1 + 10000, TimerFired (next_timer w1)) ])%list
            /\ Forall (fun te => timer_event (snd te) = true
                                 /\ vtime w <= fst te <= vtime w1) evs
            /\ vtime (snd (tick env 1 w)) = vtime w1 + 10000
      else tick env n w = (Normal tt, w))
  /\ tick env (S n) w
     = match tick env 1 w with
       | (Normal _, w') => tick env n w'
       | r => r
       end.
Proof.
  split; [|split; [|apply tick_again]].
  - exists (subscribed w). repeat split.
  - destruct (active w) eqn:Ha; [|now apply tick_inactive].
    pose proof (fetchMockStock_provides env w) as Hp.
    rewrite tick_eq, Ha.
    destruct (stalls env w).
    + destruct Hp as (d & Hd & Hp). rewrite Hp.
      exists d. eexists. split; [exact Hd|]. split; reflexivity.
    + destruct Hp as (j & b1 & b2 & b3 & w1 & Hp & Hpv). rewrite Hp.
      destruct (pv_trace _ _ _ _ Hpv) as (evs & Ht & Hf).
      eexists _, w1, evs. split; [reflexivity|]. split; [reflexivity|].
      split; [|split; [exact Hf|reflexivity]].
      simpl. rewrite Ht, <- app_assoc. reflexivity.
Qed.

(** The first turn of a subscription, event by event. *)
Example first_turn_of_a_subscription :
  let env := answering (github (num 4) (num 5)) 0 None in
  trace (snd (get_api_stock_stream env 1 boot))
  = [ (0, WriteHead 200 sse_headers);
      (0, SetTimeout 0 2000);
      (0, Fetch source);
      (300, ClearTimeout 0);
      (320, ResWrite (event_line "stock"));
      (320, ResWrite (data_line (Stringify.payload
              {| updatedAt := "2023-11-14T22:13:20.001Z";
                 items := stock true true true "2023-11-14T22:13:20.000Z" |})));
      (320, SetTimeout 1 10000);
      (10320, TimerFired 1) ].
Proof. vm_compute. reflexivity. Qed.

(** A subscriber that stays for a little over 20 s has received two events
    and is being sent the third. *)
Example three_events_in_20_s :
  map fst (filter (fun te => is_write (snd te))
             (trace (snd (get_api_stock_stream
                            (answering (github (num 4) (num 5)) 0 (Some 20700)) 5 boot))))
  = [320; 320; 10640; 10640; 20960; 20960].
Proof. vm_compute. reflexivity. Qed.

(** * Further properties *)

(** ** The timeout, end to end *)

(** X1: when the network has not settled the request within 2000 ms, the
    one-shot handler responds exactly 2000 ms after it started: the timer
    fires, the request is aborted, the timer is cleared, and the response
    carries the placeholder, flagged by the next three draws. *)
Theorem timeout_answered_after_2000_ms env w :
  unanswered env w = true ->
  vtime (snd (get_api_stock env w)) = vtime w + 2000
  /\ fst (get_api_stock env w) = Normal tt
  /\ trace (snd (get_api_stock env w))
     = (trace w ++
        [ (vtime w, SetTimeout (next_timer w) 2000);
          (vtime w, Fetch source);
          (vtime w + 2000, TimerFired (next_timer w));
          (vtime w + 2000, AbortSignal (next_timer w));
          (vtime w + 2000, ClearTimeout (next_timer w));
          (vtime w + 2000,
           ResJson 200
             {| updatedAt := Iso.toISOString (wall env (S (clock_reads w)));
                items := stock (over_half (random env (random_draws w)))
                               (over_half (random env (S (random_draws w))))
                               (over_half (random env (S (S (random_draws w)))))
                               (Iso.toISOString (wall env (clock_reads w))) |}) ])%list.
Proof.
  unfold unanswered. intros H.
  assert (E : fetchMockStock env w = simulateStock env (aborted env source 2000 w)).
  { rewrite fetchMockStock_eq.
    destruct (net env (requests w)) as [d r|d|]; cbn [settles] in H; try reflexivity;
      destruct (Z.ltb_spec (Z.of_N d) 2000); try reflexivity;
      apply Z.leb_le in H; lia. }
  rewrite get_api_stock_eq, E, simulateStock_spec.
  cbn. rewrite timer_delay_2000, <- app_assoc. repeat split.
Qed.

Lemma timeout_answered_after_2000_ms_witness :
  vtime (snd (get_api_stock (silent 0) boot)) = vtime boot + 2000
  /\ fst (get_api_stock (silent 0) boot) = Normal tt
  /\ trace (snd (get_api_stock (silent 0) boot))
     = (trace boot ++
        [ (vtime boot, SetTimeout (next_timer boot) 2000);
          (vtime boot, Fetch source);
          (vtime boot + 2000, TimerFired (next_timer boot));
          (vtime boot + 2000, AbortSignal (next_timer boot));
          (vtime boot + 2000, ClearTimeout (next_timer boot));
          (vtime boot + 2000,
           ResJson 200
             {| updatedAt := Iso.toISOString (wall (silent 0) (S (clock_reads boot)));
                items := stock (over_half (random (silent 0) (random_draws boot)))
                               (over_half (random (silent 0) (S (random_draws boot))))
                               (over_half (random (silent 0) (S (S (random_draws boot)))))
                               (Iso.toISOString (wall (silent 0) (clock_reads boot))) |}) ])%list.
Proof. apply (timeout_answered_after_2000_ms (silent 0) boot). reflexivity. Defined.

(** ** A body that never arrives *)

(** X2: the timer guards the request, not the body.  When the response
    arrives in time and the read of its body never completes, the timer has
    been cleared, the one-shot handler never responds, and a turn of the
    loop of [tick] never ends: nothing is written and nothing is pending
    that could end the wait. *)
Theorem stalled_body_hangs env w :
  stalls env w = true ->
  exists d,
    0 <= d < 2000
    /\ get_api_stock env w = (Never, settled env source 2000 d w)
    /\ (active w = true ->
        forall fuel, tick env (S fuel) w = (Never, settled env source 2000 d w))
    /\ trace (settled env source 2000 d w)
       = (trace w ++ [ (vtime w, SetTimeout (next_timer w) 2000);
                       (vtime w, Fetch source);
                       (vtime w + d, ClearTimeout (next_timer w)) ])%list
    /\ due (next_timer w) (timers (settled env source 2000 d w)) = None.
Proof.
  intros Hs. pose proof (fetchMockStock_provides env w) as Hp. rewrite Hs in Hp.
  destruct Hp as (d & Hd & Hf). exists d. split; [exact Hd|].
  split; [rewrite get_api_stock_eq, Hf; reflexivity|].
  split; [intros Ha fuel; rewrite tick_eq, Ha, Hf; reflexivity|].
  split; [reflexivity|apply due_unschedule].
Qed.

Lemma stalled_body_hangs_witness :
  exists d,
    0 <= d < 2000
    /\ get_api_stock stalling boot = (Never, settled stalling source 2000 d boot)
    /\ (active boot = true ->
        forall fuel, tick stalling (S fuel) boot = (Never, settled stalling source 2000 d boot))
    /\ trace (settled stalling source 2000 d boot)
       = (trace boot ++ [ (vtime boot, SetTimeout (next_timer boot) 2000);
                          (vtime boot, Fetch source);
                          (vtime boot + d, ClearTimeout (next_timer boot)) ])%list
    /\ due (next_timer boot) (timers (settled stalling source 2000 d boot)) = None.
Proof. apply (stalled_body_hangs stalling boot). reflexivity. Defined.

(** ** What a call costs *)

Lemma simulateStock_world env w :
  snd (simulateStock env w)
  = set_counters (S (clock_reads w)) (S (S (S (random_draws w)))) (requests w) w.
Proof. rewrite simulateStock_spec. reflexivity. Qed.

(** The world a provider call ends in, case by case, up to the counters
    that [simulateStock] moves. *)
Lemma fetchMockStock_requests env w :
  requests (snd (fetchMockStock env w)) = S (requests w).
Proof.
  rewrite fetchMockStock_eq.
  destruct (net env (requests w)) as [d [b]|d|]; cbn [body];
    try destruct (Z.of_N d <? 2000);
    try (destruct b as [d' repo|d'|d'|]);
    try (destruct (parity repo "stargazers_count" 0);
         [|destruct (parity repo "open_issues_count" 1)]);
    rewrite ?simulateStock_world; reflexivity.
Qed.

Lemma tick_requests env fuel :
  forall w, (requests w <= requests (snd (tick env fuel w)) <= requests w + fuel)%nat.
Proof.
  induction fuel as [|fuel IH]; intros w; [simpl; lia|].
  rewrite tick_eq. destruct (active w); [|simpl; lia].
  pose proof (fetchMockStock_requests env w) as Hr.
  destruct (fetchMockStock env w) as [[its|e|] w1]; simpl in Hr; simpl snd; try lia.
  specialize (IH (published env its w1)).
  change (requests (published env its w1)) with (requests w1) in IH. lia.
Qed.

(** X3: a provider call makes exactly one upstream request, whether it
    returns upstream data, falls back or hangs: there is no retry.  So a
    one-shot request costs one upstream request, and a subscription at most
    one for each turn of its loop. *)
Theorem one_request_per_call env fuel w :
  requests (snd (fetchMockStock env w)) = S (requests w)
  /\ requests (snd (get_api_stock env w)) = S (requests w)
  /\ (requests w <= requests (snd (get_api_stock_stream env fuel w))
      <= requests w + fuel)%nat.
Proof.
  split; [apply fetchMockStock_requests|]. split.
  - rewrite get_api_stock_eq. pose proof (fetchMockStock_requests env w) as Hr.
    destruct (fetchMockStock env w) as [[its|e|] w1]; exact Hr.
  - rewrite get_api_stock_stream_eq. apply (tick_requests env fuel (subscribed w)).
Qed.

(** X4: [Math.random] is consulted exactly when the [try] block throws:
    three draws then, not one otherwise.  A provider call that returns
    upstream data is a function of that data and of the clock alone. *)
Theorem draws_only_on_fallback env w :
  random_draws (snd (fetchMockStock env w))
  = (if falls_back env w then 3 + random_draws w else random_draws w)%nat
  /\ (if falls_back env w
      then exists w1, fetchMockStock env w = simulateStock env w1
                      /\ random_draws w1 = random_draws w
      else stalls env w = true
           \/ exists s1 s2 w',
               fetchMockStock env w
               = (Normal (stock s1 s2 true (Iso.toISOString (wall env (clock_reads w)))), w')).
Proof.
  rewrite fetchMockStock_eq. unfold falls_back, stalls.
  destruct (net env (requests w)) as [d [b]|d|]; cbn [body];
    try destruct (Z.of_N d <? 2000);
    try (destruct b as [d' repo|d'|d'|]);
    try (destruct (parity repo "stargazers_count" 0);
         [|destruct (parity repo "open_issues_count" 1)]);
    rewrite ?simulateStock_world;
    (split; [reflexivity|]); eauto.
Qed.

(** ** Timers left behind *)

Lemma unschedule_fresh id l :
  Forall (fun x : nat * Z => (fst x < id)%nat) l -> unschedule id l = l.
Proof.
  unfold unschedule. induction 1 as [|[i t] l Hi _ IH]; [reflexivity|].
  simpl in *. destruct (Nat.eqb_spec i id); [lia|]. simpl. now rewrite IH.
Qed.

Lemma fetchMockStock_timers env w :
  timers (snd (fetchMockStock env w)) = unschedule (next_timer w) (timers w)
  /\ next_timer (snd (fetchMockStock env w)) = S (next_timer w).
Proof.
  rewrite fetchMockStock_eq.
  destruct (net env (requests w)) as [d [b]|d|]; cbn [body];
    try destruct (Z.of_N d <? 2000);
    try (destruct b as [d' repo|d'|d'|]);
    try (destruct (parity repo "stargazers_count" 0);
         [|destruct (parity repo "open_issues_count" 1)]);
    rewrite ?simulateStock_world; split; reflexivity.
Qed.

Lemma fresh_timers_later w l n :
  Forall (fun x : nat * Z => (fst x < next_timer w)%nat) l ->
  (next_timer w <= n)%nat ->
  Forall (fun x : nat * Z => (fst x < n)%nat) l.
Proof. intros H Hn. eapply Forall_impl; [|exact H]. simpl. intros; lia. Qed.

Lemma tick_timers env fuel :
  forall w, fresh_timers w ->
            timers (snd (tick env fuel w)) = timers w
            /\ (next_timer w <= next_timer (snd (tick env fuel w)))%nat.
Proof.
  induction fuel as [|fuel IH]; intros w Hw; [simpl; split; [reflexivity|lia]|].
  rewrite tick_eq. destruct (active w); [|simpl; split; [reflexivity|lia]].
  destruct (fetchMockStock_timers env w) as [Ht Hn].
  rewrite (unschedule_fresh _ _ Hw) in Ht.
  destruct (fetchMockStock env w) as [[its|e|] w1]; simpl in Ht, Hn;
    try (simpl; split; [assumption|lia]).
  assert (Hp : timers (published env its w1) = timers w).
  { simpl. rewrite Ht. apply unschedule_fresh.
    apply (fresh_timers_later w); [exact Hw|lia]. }
  destruct (IH (published env its w1)) as [H1 H2].
  - unfold fresh_timers. rewrite Hp.
    apply (fresh_timers_later w); [exact Hw|simpl; lia].
  - split; [congruence|]. simpl in H2. lia.
Qed.

(** X5: the handlers leave no timer behind.  Started where every pending
    timer is an older one, the one-shot handler and any number of turns of
    a subscription end with exactly the timers that were pending before:
    the abort timer of each provider call and the 10 s timer of each turn
    are gone when the turn is over, also when the call failed or hangs. *)
Theorem no_timer_left_behind env fuel w :
  fresh_timers w ->
  timers (snd (fetchMockStock env w)) = timers w
  /\ timers (snd (get_api_stock env w)) = timers w
  /\ timers (snd (get_api_stock_stream env fuel w)) = timers w.
Proof.
  intros Hw. destruct (fetchMockStock_timers env w) as [Ht _].
  rewrite (unschedule_fresh _ _ Hw) in Ht.
  split; [exact Ht|]. split.
  - rewrite get_api_stock_eq.
    destruct (fetchMockStock env w) as [[its|e|] w1]; exact Ht.
  - rewrite get_api_stock_stream_eq.
    apply (tick_timers env fuel (subscribed w)). exact Hw.
Qed.

Lemma no_timer_left_behind_witness :
  timers (snd (fetchMockStock (silent 0) boot)) = timers boot
  /\ timers (snd (get_api_stock (silent 0) boot)) = timers boot
  /\ timers (snd (get_api_stock_stream (silent 0) 3 boot)) = timers boot.
Proof. apply (no_timer_left_behind (silent 0) 3 boot). constructor. Defined.

(** ** A subscription that stays, and one that leaves *)

Lemma chunks_app a b : chunks (a ++ b) = (chunks a ++ chunks b)%list.
Proof. unfold chunks. apply flat_map_app. Qed.

Lemma chunks_timer evs t1 t2 :
  Forall (fun te => timer_event (snd te) = true /\ t1 <= fst te <= t2) evs ->
  chunks evs = [].
Proof.
  induction 1 as [|[t e] l [He _] _ IH]; [reflexivity|].
  simpl in *. destruct e; try discriminate; exact IH.
Qed.

Lemma closed_by_never env t : closes_at env = None -> closed_by env t = false.
Proof. unfold closed_by. now intros ->. Qed.

Lemma tick_open env fuel :
  closes_at env = None ->
  never_stalls env ->
  forall w, active w = true ->
    exists evs,
      trace (snd (tick env fuel w)) = (trace w ++ evs)%list
      /\ List.length (chunks evs) = (2 * fuel)%nat
      /\ fst (tick env fuel w) = Normal tt
      /\ active (snd (tick env fuel w)) = true
      /\ requests (snd (tick env fuel w)) = (requests w + fuel)%nat
      /\ vtime w + 10000 * Z.of_nat fuel <= vtime (snd (tick env fuel w)).
Proof.
  intros Hc Hs. induction fuel as [|fuel IH]; intros w Ha.
  - exists []. simpl. rewrite app_nil_r. repeat split; try assumption; lia.
  - rewrite tick_eq, Ha.
    pose proof (fetchMockStock_provides env w) as Hp. rewrite (Hs w) in Hp.
    destruct Hp as (j & b1 & b2 & b3 & w1 & Hf & Hpv). rewrite Hf.
    destruct (pv_trace _ _ _ _ Hpv) as (evs' & Ht' & Hf').
    pose proof (pv_active _ _ _ _ Hpv) as Hact.
    rewrite Ha, closed_by_never in Hact by assumption. simpl in Hact.
    set (its := stock b1 b2 b3 (Iso.toISOString (wall env j))) in *.
    destruct (IH (published env its w1)) as (evs & Ht & Hl & Hr & Hact' & Hq & Hv).
    { simpl. rewrite Hact, closed_by_never by assumption. reflexivity. }
    rewrite Ht. simpl trace. rewrite Ht'. repeat rewrite <- app_assoc. simpl.
    eexists. split; [reflexivity|]. split.
    + change ((?a, ?x) :: (?b, ?y) :: evs' ++ ?l)%list
        with ([(a, x); (b, y)] ++ evs' ++ l)%list.
      rewrite !chunks_app, (chunks_timer evs' _ _ Hf').
      change ((?a, ?x) :: (?b, ?y) :: (?c, ?z) :: (?d, ?u) :: evs)%list
        with ([(a, x); (b, y); (c, z); (d, u)] ++ evs)%list.
      rewrite chunks_app, !length_app, Hl. simpl. lia.
    + split; [exact Hr|]. split; [exact Hact'|]. split.
      * rewrite Hq. simpl. rewrite (pv_requests _ _ _ _ Hpv). lia.
      * pose proof (pv_time _ _ _ _ Hpv). simpl vtime in Hv. lia.
Qed.

(** X6: a subscription whose client stays, fed by an upstream whose bodies
    always arrive, is served for ever: after any number of turns the loop
    is still running, it has written two chunks (one event) and made one
    upstream request for each turn, and no turn took less than 10 s. *)
Theorem stream_goes_on env fuel w :
  closes_at env = None ->
  never_stalls env ->
  exists evs,
    trace (snd (get_api_stock_stream env fuel w))
    = (trace w ++ (vtime w, WriteHead 200 sse_headers) :: evs)%list
    /\ List.length (chunks evs) = (2 * fuel)%nat
    /\ active (snd (get_api_stock_stream env fuel w)) = true
    /\ requests (snd (get_api_stock_stream env fuel w)) = (requests w + fuel)%nat
    /\ vtime w + 10000 * Z.of_nat fuel <= vtime (snd (get_api_stock_stream env fuel w)).
Proof.
  intros Hc Hs. rewrite get_api_stock_stream_eq.
  destruct (tick_open env fuel Hc Hs (subscribed w) eq_refl)
    as (evs & Ht & Hl & _ & Ha & Hq & Hv).
  exists evs. rewrite Ht. simpl. rewrite <- app_assoc. simpl.
  repeat split; assumption.
Qed.

Lemma stream_goes_on_witness :
  exists evs,
    trace (snd (get_api_stock_stream (silent 0) 3 boot))
    = (trace boot ++ (vtime boot, WriteHead 200 sse_headers) :: evs)%list
    /\ List.length (chunks evs) = (2 * 3)%nat
    /\ active (snd (get_api_stock_stream (silent 0) 3 boot)) = true
    /\ requests (snd (get_api_stock_stream (silent 0) 3 boot)) = (requests boot + 3)%nat
    /\ vtime boot + 10000 * Z.of_nat 3
       <= vtime (snd (get_api_stock_stream (silent 0) 3 boot)).
Proof.
  apply (stream_goes_on (silent 0) 3 boot); [reflexivity|intros w; reflexivity].
Defined.

Lemma tick_leaves env tc :
  closes_at env = Some tc ->
  never_stalls env ->
  forall n w,
    (active w = true -> vtime w < tc) ->
    tc <= vtime w + 10000 * Z.of_nat n ->
    fst (tick env n w) = Normal tt
    /\ active (snd (tick env n w)) = false
    /\ forall k, tick env (n + k) w = tick env n w.
Proof.
  intros Hc Hs. induction n as [|n IH]; intros w Hw Hn.
  - assert (Ha : active w = false).
    { destruct (active w); [|reflexivity]. specialize (Hw eq_refl). lia. }
    simpl. repeat split; try assumption. intros k. now apply tick_inactive.
  - destruct (active w) eqn:Ha.
    2:{ rewrite !tick_inactive by assumption. repeat split; try assumption.
        intros k. now apply tick_inactive. }
    pose proof (fetchMockStock_provides env w) as Hp. rewrite (Hs w) in Hp.
    destruct Hp as (j & b1 & b2 & b3 & w1 & Hf & Hpv).
    set (its := stock b1 b2 b3 (Iso.toISOString (wall env j))) in *.
    pose proof (pv_time _ _ _ _ Hpv) as Ht.
    destruct (IH (published env its w1)) as (H1 & H2 & H3).
    + simpl. intros H. eapply active_before; eauto.
    + simpl vtime. lia.
    + rewrite tick_eq, Ha, Hf. repeat split; try assumption.
      intros k. change (S n + k)%nat with (S (n + k)).
      rewrite tick_eq, Ha, Hf. apply H3.
Qed.

(** X7: a subscription whose client leaves comes to an end.  When the
    [close] event comes after the subscription was made and the bodies of
    the upstream always arrive, the loop has returned, with the flag down,
    once as many turns have been run as 10 s waits fit before the event;
    running it longer changes nothing. *)
Theorem stream_ends_after_close env tc n w :
  closes_at env = Some tc ->
  never_stalls env ->
  vtime w < tc ->
  tc <= vtime w + 10000 * Z.of_nat n ->
  fst (get_api_stock_stream env n w) = Normal tt
  /\ active (snd (get_api_stock_stream env n w)) = false
  /\ forall k, get_api_stock_stream env (n + k) w = get_api_stock_stream env n w.
Proof.
  intros Hc Hs Hw Hn. rewrite get_api_stock_stream_eq.
  destruct (tick_leaves env tc Hc Hs n (subscribed w)) as (H1 & H2 & H3);
    [intros _; exact Hw|exact Hn|].
  split; [exact H1|]. split; [exact H2|exact H3].
Qed.

Lemma stream_ends_after_close_witness :
  fst (get_api_stock_stream (answering (github (num 4) (num 5)) 0 (Some 100)) 1 boot)
  = Normal tt
  /\ active (snd (get_api_stock_stream
                    (answering (github (num 4) (num 5)) 0 (Some 100)) 1 boot)) = false
  /\ forall k,
      get_api_stock_stream (answering (github (num 4) (num 5)) 0 (Some 100)) (1 + k) boot
      = get_api_stock_stream (answering (github (num 4) (num 5)) 0 (Some 100)) 1 boot.
Proof.
  apply (stream_ends_after_close
           (answering (github (num 4) (num 5)) 0 (Some 100)) 100 1 boot);
    [reflexivity|intros w; reflexivity|cbn [vtime boot]; lia|cbn [vtime boot]; lia].
Defined.

(** ** A network error before the timer *)

(** X8: a request that the network rejects before the timer comes due is
    answered at once: the handler responds with the placeholder at the time
    of the error, the timer is cleared and never fires, and nothing is
    aborted. *)
Theorem network_error_answered_at_once env w d :
  net env (requests w) = Fails d ->
  Z.of_N d < 2000 ->
  fst (get_api_stock env w) = Normal tt
  /\ vtime (snd (get_api_stock env w)) = vtime w + Z.of_N d
  /\ trace (snd (get_api_stock env w))
     = (trace w ++
        [ (vtime w, SetTimeout (next_timer w) 2000);
          (vtime w, Fetch source);
          (vtime w + Z.of_N d, ClearTimeout (next_timer w));
          (vtime w + Z.of_N d,
           ResJson 200
             {| updatedAt := Iso.toISOString (wall env (S (clock_reads w)));
                items := stock (over_half (random env (random_draws w)))
                               (over_half (random env (S (random_draws w))))
                               (over_half (random env (S (S (random_draws w)))))
                               (Iso.toISOString (wall env (clock_reads w))) |}) ])%list.
Proof.
  intros Hn Hd. rewrite get_api_stock_eq, fetchMockStock_eq, Hn.
  apply Z.ltb_lt in Hd. rewrite Hd, simulateStock_spec.
  cbn. rewrite timer_delay_2000, <- app_assoc. repeat split.
Qed.

(** ** The stream, chunk by chunk *)

Lemma frames_snoc ps p :
  frames (ps ++ [p])
  = (frames ps ++ [event_line "stock"; data_line (Stringify.payload p)])%list.
Proof. unfold frames. rewrite flat_map_app. reflexivity. Qed.

Lemma timer_events_loop evs t1 t2 :
  Forall (fun te => timer_event (snd te) = true /\ t1 <= fst te <= t2) evs ->
  Forall (fun te : Z * Event => loop_event (snd te) = true) evs.
Proof.
  intros H. eapply Forall_impl; [|exact H].
  intros [t e] [He _]. destruct e; simpl in *; try discriminate; reflexivity.
Qed.

Lemma tick_frames env fuel w :
  exists evs ps,
    trace (snd (tick env fuel w)) = (trace w ++ evs)%list
    /\ chunks evs = frames ps
    /\ Forall (served env) ps
    /\ Forall (fun te => loop_event (snd te) = true) evs.
Proof.
  apply (tick_invariant env
           (fun w' => exists evs ps,
                trace w' = (trace w ++ evs)%list
                /\ chunks evs = frames ps
                /\ Forall (served env) ps
                /\ Forall (fun te => loop_event (snd te) = true) evs)).
  - intros w0 d (evs & ps & Ht & Hc & Hs & Hl) _ _ _.
    simpl trace. rewrite Ht, <- app_assoc.
    eexists _, ps. split; [reflexivity|]. split.
    + rewrite chunks_app, Hc. simpl. now rewrite app_nil_r.
    + split; [assumption|]. apply Forall_app. split; [assumption|].
      repeat constructor.
  - intros w0 j b1 b2 b3 w1 (evs & ps & Ht & Hc & Hs & Hl) _ _ Hpv.
    destruct (pv_trace _ _ _ _ Hpv) as (evs' & Ht' & Hf').
    destruct (pv_clock _ _ _ _ Hpv) as [_ Hck].
    simpl trace. rewrite Ht', Ht. repeat rewrite <- app_assoc. simpl.
    eexists _, (ps ++ [payload_of env (stock b1 b2 b3 (Iso.toISOString (wall env j))) w1])%list.
    split; [reflexivity|]. split; [|split].
    + rewrite frames_snoc.
      change ((?a, ?x) :: (?b, ?y) :: evs' ++ ?l)%list
        with ([(a, x); (b, y)] ++ evs' ++ l)%list.
      rewrite !chunks_app, (chunks_timer evs' _ _ Hf'), Hc. reflexivity.
    + apply Forall_app. split; [assumption|]. constructor; [|constructor].
      now apply served_payload_of.
    + apply Forall_app. split; [assumption|].
      constructor; [reflexivity|]. constructor; [reflexivity|].
      apply Forall_app. split; [exact (timer_events_loop _ _ _ Hf')|].
      repeat constructor.
  - exists [], []. rewrite app_nil_r. repeat split; constructor.
Qed.

(** X9: what a subscription sends is a response head followed by whole
    events.  The head is written once, first, with status 200 and the
    event-stream headers; the chunks written after it are, in order, the
    event line and the data line of one snapshot after another, never one
    line without the other, and no second head or JSON response follows. *)
Theorem stream_is_whole_events env fuel w :
  exists evs ps,
    trace (snd (get_api_stock_stream env fuel w))
    = (trace w ++ (vtime w, WriteHead 200 sse_headers) :: evs)%list
    /\ chunks evs = frames ps
    /\ Forall (served env) ps
    /\ Forall (fun te => loop_event (snd te) = true) evs.
Proof.
  rewrite get_api_stock_stream_eq.
  destruct (tick_frames env fuel (subscribed w)) as (evs & ps & Ht & Hc & Hs & Hl).
  exists evs, ps. rewrite Ht. simpl. rewrite <- app_assoc. simpl.
  repeat split; assumption.
Qed.

(** ** Line breaks in the data line *)

Lemma breaks_app a b : breaks (a ++ b) = (breaks a + breaks b)%nat.
Proof. induction a as [|c a IH]; simpl; [reflexivity|]. rewrite IH. lia. Qed.

Lemma breaks_escape c : breaks (Stringify.escape c) = 0%nat.
Proof. destruct c as [[] [] [] [] [] [] [] []]; reflexivity. Qed.

Lemma breaks_escape_all s : breaks (Stringify.escape_all s) = 0%nat.
Proof.
  induction s as [|c s IH]; simpl; [reflexivity|].
  now rewrite breaks_app, breaks_escape, IH.
Qed.

Lemma breaks_quote s : breaks (Stringify.quote s) = 0%nat.
Proof.
  unfold Stringify.quote. rewrite !breaks_app, breaks_escape_all. reflexivity.
Qed.

Lemma breaks_stock_item it : breaks (Stringify.stock_item it) = 0%nat.
Proof.
  unfold Stringify.stock_item, Stringify.member.
  repeat rewrite breaks_app. rewrite !breaks_quote.
  destruct (inStock it); reflexivity.
Qed.

Lemma breaks_elements l :
  Forall (fun s => breaks s = 0%nat) l -> breaks (Stringify.elements l) = 0%nat.
Proof.
  induction 1 as [|x l Hx Hl IH]; [reflexivity|].
  destruct l as [|y l]; [exact Hx|].
  change (Stringify.elements (x :: y :: l))
    with (x ++ "," ++ Stringify.elements (y :: l)).
  rewrite !breaks_app, Hx, IH. reflexivity.
Qed.

(** X10: the serialised snapshot never breaks the line.  Whatever strings
    the items carry and however many items there are, [JSON.stringify]
    escapes every line feed and carriage return, so the data line of an
    event has exactly two line breaks, the two that end the event. *)
Theorem data_line_is_one_line p :
  breaks (Stringify.payload p) = 0%nat
  /\ breaks (data_line (Stringify.payload p)) = 2%nat.
Proof.
  assert (H : breaks (Stringify.payload p) = 0%nat).
  { unfold Stringify.payload, Stringify.member.
    repeat rewrite breaks_app. rewrite !breaks_quote, breaks_elements.
    - reflexivity.
    - apply Forall_forall. intros s Hs. apply in_map_iff in Hs.
      destruct Hs as (it & <- & _). apply breaks_stock_item. }
  split; [exact H|].
  unfold data_line. rewrite !breaks_app, H. reflexivity.
Qed.

(** ** A delay out of range *)

(** X11: a delay below 1 ms or above 2^31-1 ms arms a 1 ms timer.  Unless
    the network settles the request at once, [fetchWithTimeout] called with
    such a delay rejects with [AbortError] 1 ms later. *)
Theorem delay_out_of_range_aborts env url ms w :
  ms < 1 \/ 2147483647 < ms ->
  (forall r, settles (net env (requests w)) <> Some (0, r)) ->
  fetchWithTimeout env url ms w = (Throw JS.AbortError, aborted env url ms w)
  /\ vtime (aborted env url ms w) = vtime w + 1.
Proof.
  intros Hms Hnet.
  assert (Hd : timer_delay ms = 1).
  { unfold timer_delay.
    destruct (Z.ltb_spec ms 1); destruct (Z.ltb_spec 2147483647 ms);
      simpl; try reflexivity; lia. }
  rewrite fetchWithTimeout_spec. unfold aborted. rewrite Hd. cbn [vtime].
  split; [|reflexivity].
  destruct (net env (requests w)) as [d r|d|]; cbn [settles] in *; try reflexivity.
  - destruct (Z.ltb_spec (Z.of_N d) 1); [|reflexivity].
    exfalso. apply (Hnet (inr r)). repeat f_equal. lia.
  - destruct (Z.ltb_spec (Z.of_N d) 1); [|reflexivity].
    exfalso. apply (Hnet (inl JS.FetchError)). repeat f_equal. lia.
Qed.

Lemma delay_out_of_range_aborts_witness :
  fetchWithTimeout (answering JS.JNull 0 None) source 3000000000 boot
  = (Throw JS.AbortError, aborted (answering JS.JNull 0 None) source 3000000000 boot)
  /\ vtime (aborted (answering JS.JNull 0 None) source 3000000000 boot) = vtime boot + 1.
Proof.
  apply (delay_out_of_range_aborts (answering JS.JNull 0 None) source 3000000000 boot);
    [right; lia|intros r; discriminate].
Defined.

Lemma network_error_answered_at_once_witness :
  fst (get_api_stock failing boot) = Normal tt
  /\ vtime (snd (get_api_stock failing boot)) = vtime boot + Z.of_N 50
  /\ trace (snd (get_api_stock failing boot))
     = (trace boot ++
        [ (vtime boot, SetTimeout (next_timer boot) 2000);
          (vtime boot, Fetch source);
          (vtime boot + Z.of_N 50, ClearTimeout (next_timer boot));
          (vtime boot + Z.of_N 50,
           ResJson 200
             {| updatedAt := Iso.toISOString (wall failing (S (clock_reads boot)));
                items := stock (over_half (random failing (random_draws boot)))
                               (over_half (random failing (S (random_draws boot))))
                               (over_half (random failing (S (S (random_draws boot)))))
                               (Iso.toISOString (wall failing (clock_reads boot))) |}) ])%list.
Proof.
  apply (network_error_answered_at_once failing boot 50%N); reflexivity.
Defined.

(** ** Counts that are no numbers *)

Lemma parity_scalar repo k r :
  scalar_field repo k = true -> exists b, parity repo k r = inr b.
Proof.
  unfold scalar_field, parity.
  destruct (JS.Get repo k) as [e|[|[|b|n|s n|l n|f]]]; try discriminate;
    intros _; simpl; eauto.
Qed.

(** X12: nothing validates the counts.  When the response arrives in time
    and each of the two fields of its body is missing, [null], a boolean, a
    number or a string -- whatever its value -- the provider does not fall
    back: it returns flags computed from the body, the third of them true,
    and draws no random number. *)
Theorem scalar_counts_never_fall_back env w d d' repo :
  net env (requests w) = Responds d {| body := BodyJson d' repo |} ->
  Z.of_N d < 2000 ->
  scalar_field repo "stargazers_count" = true ->
  scalar_field repo "open_issues_count" = true ->
  exists s1 s2 w',
    fetchMockStock env w
    = (Normal (stock s1 s2 true (Iso.toISOString (wall env (clock_reads w)))), w')
    /\ random_draws w' = random_draws w
    /\ vtime w' = vtime w + Z.of_N d + Z.of_N d'.
Proof.
  intros Hnet Hd H1 H2. rewrite fetchMockStock_eq, Hnet.
  apply Z.ltb_lt in Hd. rewrite Hd. cbn [body].
  destruct (parity_scalar repo "stargazers_count" 0 H1) as [s1 ->].
  destruct (parity_scalar repo "open_issues_count" 1 H2) as [s2 ->].
  exists s1, s2. eexists. split; [reflexivity|]. split; [reflexivity|].
  cbn. lia.
Qed.

Lemma scalar_counts_never_fall_back_witness :
  exists s1 s2 w',
    fetchMockStock (answering (github (JS.JStr "many" JS.NotInt) (JS.JBool true)) 0 None) boot
    = (Normal (stock s1 s2 true
                 (Iso.toISOString
                    (wall (answering (github (JS.JStr "many" JS.NotInt) (JS.JBool true)) 0 None)
                          (clock_reads boot)))), w')
    /\ random_draws w' = random_draws boot
    /\ vtime w' = vtime boot + Z.of_N 300 + Z.of_N 20.
Proof.
  apply (scalar_counts_never_fall_back
           (answering (github (JS.JStr "many" JS.NotInt) (JS.JBool true)) 0 None)
           boot 300%N 20%N (github (JS.JStr "many" JS.NotInt) (JS.JBool true)));
    reflexivity.
Defined.
